(** * main.py: the Myntra product endpoint

    A shallow embedding of [fetch_myntra_product] from [main.py] and of
    the parts of the Python runtime it relies on: [str] containment and
    [index], the truthiness-driven [or] chains over the values that
    [json.loads] produces, [dict.get], subscripting, [int()], and the JSON
    decoder of the standard library ([json.decoder], [json.scanner]).

    - A [str] is a list of code points; an [int] is a [Z]; a [float] is a
      binary64 number of [SpecFloat], obtained from its decimal text by
      correct rounding.
    - Exceptions are explicit: a computation returns [Ok] or [Raise], and
      [try]/[except] is a match on the result. What the handler raises
      itself ([HTTPException]) is kept apart from what passes through it
      uncaught.
    - What the program obtains from outside is gathered in the record
      [World]: the result of [urlparse], the answer of [requests.get], the
      script texts that BeautifulSoup finds, [int()] on a [str] (its
      Unicode digit tables are not fixed here) and the validation of a
      pydantic [str] field (which differs between pydantic versions).
    - The handler returns, next to its outcome, the trace of the calls of
      [requests.get] it made, so that "before any request" can be stated.

    Two limits of the interpreter are not modelled: the recursion limit,
    which makes [json.loads] fail on very deeply nested documents, and the
    limit on the number of digits of an [int] literal. *)

From Stdlib Require Import ZArith NArith List String Ascii Bool Lia SpecFloat.
Import ListNotations.

Set Warnings "-register-all".

Local Open Scope Z_scope.

(* ================================================================== *)
(** * Python strings *)
(* ================================================================== *)

Module PyStr.

(** A Python [str] is a sequence of Unicode code points. *)
Definition pystr := list N.

(** An ASCII literal of the source, as a [str]. *)
Definition py (s : string) : pystr :=
  List.map N_of_ascii (list_ascii_of_string s).

Fixpoint eqb (a b : pystr) : bool :=
  match a, b with
  | [], [] => true
  | x :: a', y :: b' => N.eqb x y && eqb a' b'
  | _, _ => false
  end.

(** [s.startswith(p)] *)
Fixpoint startswith (p s : pystr) : bool :=
  match p, s with
  | [], _ => true
  | x :: p', y :: s' => N.eqb x y && startswith p' s'
  | _ :: _, [] => false
  end.

(** [s.find(sub)]: the lowest index at which [sub] occurs, if any. *)
Fixpoint find (sub s : pystr) : option nat :=
  if startswith sub s then Some 0%nat
  else match s with
       | [] => None
       | _ :: s' => option_map S (find sub s')
       end.

(** [sub in s] *)
Definition contains (sub s : pystr) : bool :=
  match find sub s with Some _ => true | None => false end.

(** [s[i:]] *)
Definition slice_from (i : nat) (s : pystr) : pystr := skipn i s.

End PyStr.
Import PyStr.

(* ================================================================== *)
(** * Exceptions and results *)
(* ================================================================== *)

(** The built-in and library exceptions that can arise below
    [fetch_myntra_product]. *)
Inductive py_error :=
| RequestException (msg : pystr)     (* requests: transport failure, with its str() *)
| ValueError_substring_not_found     (* str.index *)
| JSONDecodeError                    (* json.loads *)
| RecursionError
| AttributeError                     (* x.get on something that is not a dict *)
| TypeError
| KeyError
| IndexError
| ValueError
| OverflowError
| ValidationError.                   (* pydantic, building ProductResponse *)

(** The argument interpolated into an f-string [detail]. *)
Inductive fmt_arg :=
| ArgNone
| ArgInt (z : Z)
| ArgErr (e : py_error).

(** [detail] of an [HTTPException]: the literal text followed by the
    interpolated argument, kept apart rather than rendered. *)
Record Detail := mkDetail { text_of : string; arg_of : fmt_arg }.

(** What leaves the handler when it does not return: an [HTTPException]
    it raised itself, or any other exception passing through. *)
Inductive exn :=
| HTTPException (status_code : Z) (detail : Detail)
| Uncaught (e : py_error).

Inductive result (E A : Type) :=
| Ok (a : A)
| Raise (e : E).
Arguments Ok {E A} a.
Arguments Raise {E A} e.

Definition bind {E A B} (m : result E A) (k : A -> result E B) : result E B :=
  match m with
  | Ok a => k a
  | Raise e => Raise e
  end.

Declare Scope py_scope.
Delimit Scope py_scope with py.
Notation "x <- m ;; k" := (bind m (fun x => k))
  (at level 100, m at next level, right associativity) : py_scope.
Local Open Scope py_scope.

(* ================================================================== *)
(** * Python values *)
(* ================================================================== *)

(** The values [json.loads] builds: [None], [bool], [int], [float],
    [str], [list] and [dict] (string keys, insertion order, unique keys
    when built by the decoder). *)
Inductive value :=
| PyNone
| PyBool (b : bool)
| PyInt (n : Z)
| PyFloat (f : spec_float)
| PyStr (s : pystr)
| PyList (l : list value)
| PyDict (d : list (pystr * value)).

(** [bool(v)] *)
Definition truthy (v : value) : bool :=
  match v with
  | PyNone => false
  | PyBool b => b
  | PyInt n => negb (n =? 0)
  | PyFloat (S754_zero _) => false
  | PyFloat _ => true
  | PyStr s => match s with [] => false | _ => true end
  | PyList l => match l with [] => false | _ => true end
  | PyDict d => match d with [] => false | _ => true end
  end.

(** Lookup in the entries of a dict. *)
Fixpoint lookup (k : pystr) (d : list (pystr * value)) : option value :=
  match d with
  | [] => None
  | (k', v) :: d' => if PyStr.eqb k k' then Some v else lookup k d'
  end.

(** [d[k] = v]: replace in place, or append. *)
Fixpoint dict_set (k : pystr) (v : value) (d : list (pystr * value))
  : list (pystr * value) :=
  match d with
  | [] => [(k, v)]
  | (k', v') :: d' =>
      if PyStr.eqb k k' then (k', v) :: d' else (k', v') :: dict_set k v d'
  end.

(** [dict(pairs)] *)
Definition dict_of_pairs (pairs : list (pystr * value)) : list (pystr * value) :=
  fold_left (fun d kv => dict_set (fst kv) (snd kv) d) pairs [].

(** [x.get(k, default)]; only a dict has the attribute. *)
Definition get_default (x : value) (k : string) (default : value)
  : result py_error value :=
  match x with
  | PyDict d => Ok (match lookup (py k) d with Some v => v | None => default end)
  | _ => Raise AttributeError
  end.

(** [x.get(k)] *)
Definition get (x : value) (k : string) : result py_error value :=
  get_default x k PyNone.

(** [a or b]: [b] is only evaluated (and can only raise) when [a] is falsy. *)
Definition or_ (a b : result py_error value) : result py_error value :=
  x <- a ;; if truthy x then Ok x else b.
Notation "a 'OR' b" := (or_ a b) (at level 85, right associativity) : py_scope.

(** [isinstance(v, list)] *)
Definition is_list (v : value) : bool :=
  match v with PyList _ => true | _ => false end.

(** [x[0]] *)
Definition item0 (x : value) : result py_error value :=
  match x with
  | PyList (v :: _) => Ok v
  | PyList [] => Raise IndexError
  | PyStr (c :: _) => Ok (PyStr [c])
  | PyStr [] => Raise IndexError
  | PyDict _ => Raise KeyError        (* the keys of a decoded dict are strings *)
  | _ => Raise TypeError
  end.

(** [int(f)] for a float: truncation towards zero. *)
Definition trunc_float (f : spec_float) : result py_error Z :=
  match f with
  | S754_zero _ => Ok 0
  | S754_infinity _ => Raise OverflowError
  | S754_nan => Raise ValueError
  | S754_finite s m e =>
      let a := match e with
               | Zneg p => Z.shiftr (Zpos m) (Zpos p)
               | _ => Z.shiftl (Zpos m) e
               end in
      Ok (if s then - a else a)
  end.

(* ================================================================== *)
(** * The outside world *)
(* ================================================================== *)

(** [resp.status_code], [resp.text] *)
Record Response := mkResponse { status_code : Z; text : pystr }.

(** The record fixes what the calls can do: [requests.get] returns a
    response or raises a [RequestException], and the HTML parser returns
    the script texts. An exception of another class out of these two
    calls, which the source would not catch, is outside the model. *)
Record World := mkWorld {
  (** [urlparse(url).netloc]; [None] when [urlparse] raises [ValueError]. *)
  urlparse_netloc : pystr -> option pystr;
  (** [requests.get(url, headers=HEADERS, timeout=10)]: the response, or
      the [str()] of the [RequestException] it raised. *)
  requests_get : pystr -> pystr + Response;
  (** [[s.get_text(strip=True) for s in BeautifulSoup(html, "lxml").find_all("script")]] *)
  soup_script_texts : pystr -> list pystr;
  (** [int(s)] for a [str]; [None] when it raises [ValueError]. *)
  int_of_str : pystr -> option Z;
  (** What a pydantic [str] field makes of a value; [None] when validation
      fails. A [str] is always accepted as it is. *)
  pydantic_str : value -> option pystr;
  pydantic_str_str : forall s, pydantic_str (PyStr s) = Some s
}.

(** [int(v)] *)
Definition py_int (w : World) (v : value) : result py_error Z :=
  match v with
  | PyInt n => Ok n
  | PyBool b => Ok (if b then 1 else 0)
  | PyFloat f => trunc_float f
  | PyStr s => match int_of_str w s with Some n => Ok n | None => Raise ValueError end
  | PyNone | PyList _ | PyDict _ => Raise TypeError
  end.

(** ** The host of a network location *)

(** [s.rpartition(c)[2]]: what follows the last [c], or [s] without one. *)
Fixpoint after_last (c : N) (s : pystr) : pystr :=
  match s with
  | [] => []
  | x :: s' =>
      if existsb (N.eqb c) s' then after_last c s'
      else if N.eqb x c then s' else s
  end.

(** [s.partition(c)[0]]: what precedes the first [c]. *)
Fixpoint before_first (c : N) (s : pystr) : pystr :=
  match s with
  | [] => []
  | x :: s' => if N.eqb x c then [] else x :: before_first c s'
  end.

(** [s.partition(c)[2]]: what follows the first [c], empty without one. *)
Fixpoint after_first (c : N) (s : pystr) : pystr :=
  match s with
  | [] => []
  | x :: s' => if N.eqb x c then s' else after_first c s'
  end.

(** [str.lower] on the letters A to Z. *)
Definition ascii_lower (s : pystr) : pystr :=
  List.map (fun c => if (65 <=? c)%N && (c <=? 90)%N then (c + 32)%N else c) s.

(** The [hostname] property of the result of [urlparse], computed from
    its [netloc] as [urllib.parse] does: the user information up to the
    last at-sign and the port are dropped, brackets enclose an IPv6
    literal, and the name (not the IPv6 zone after a percent sign) is
    lowercased. The empty result stands for [None]. *)
Definition hostname (netloc : pystr) : pystr :=
  let hostinfo := after_last 64 netloc in
  let name :=
    if existsb (N.eqb 91) hostinfo
    then before_first 93 (after_first 91 hostinfo)
    else before_first 58 hostinfo in
  ascii_lower (before_first 37 name)
  ++ (if existsb (N.eqb 37) name then 37%N :: after_first 37 name else []).

(* ================================================================== *)
(** * Models *)
(* ================================================================== *)

(** The request body; [url] holds [str(payload.url)], the text of the
    URL that pydantic has validated. *)
Record ProductRequest := mkProductRequest { url : pystr }.

Record ProductResponse := mkProductResponse {
  title : pystr;
  primary_image : pystr;
  original_price : Z;
  discounted_price : Z;
  in_stock : bool
}.

(** Building a [ProductResponse]: the two [str] fields are validated; the
    prices are already [int] and [in_stock] already [bool]. *)
Definition ProductResponse_new (w : World)
    (title primary_image : value) (original_price discounted_price : Z)
    (in_stock : bool) : result py_error ProductResponse :=
  match pydantic_str w title, pydantic_str w primary_image with
  | Some t, Some i => Ok (mkProductResponse t i original_price discounted_price in_stock)
  | _, _ => Raise ValidationError
  end.

(* ================================================================== *)
(** * Step 5 and 6 of [fetch_myntra_product]: the field mapping *)
(* ================================================================== *)

(** [data = raw_data.get("pdpData") or raw_data] *)
Definition effective_record (raw_data : value) : result py_error value :=
  get raw_data "pdpData" OR Ok raw_data.

(** The title chain. *)
Definition map_title (data : value) : result py_error value :=
  get data "name"
  OR (product <- get_default data "product" (PyDict []) ;; get product "productName")
  OR Ok (PyStr (py "Unknown Product")).

(** The image descent; [primary_image] starts as [None] and is replaced by
    the empty string when it ends up falsy. *)
Definition map_primary_image (data : value) : result py_error value :=
  media <- (get data "media" OR Ok (PyDict [])) ;;
  albums <- (get media "albums" OR Ok (PyList [])) ;;
  primary_image <-
    (if truthy albums && is_list albums then
       album <- item0 albums ;;
       images <- (get album "images" OR Ok (PyList [])) ;;
       if truthy images then
         img <- item0 images ;;
         (get img "secureSrc" OR get img "imageURL" OR get img "src")
       else Ok PyNone
     else Ok PyNone) ;;
  Ok (if negb (truthy primary_image) then PyStr [] else primary_image).

(** [price_info = data.get("price") or {}] *)
Definition map_price_info (data : value) : result py_error value :=
  get data "price" OR Ok (PyDict []).

(** The [original_price] chain, before the final [int()]. *)
Definition map_original_price (data price_info : value) : result py_error value :=
  get data "mrp" OR get price_info "mrp" OR get price_info "marked" OR Ok (PyInt 0).

(** The [discounted_price] chain, before the final [int()]. *)
Definition map_discounted_price (data price_info original_price : value)
  : result py_error value :=
  get data "discountedPrice"
  OR get price_info "discountedPrice"
  OR get price_info "effective"
  OR Ok original_price.

(** [in_stock = not flags.get("outOfStock", False)] with
    [flags = data.get("flags") or {}]. *)
Definition map_in_stock (data : value) : result py_error bool :=
  flags <- (get data "flags" OR Ok (PyDict [])) ;;
  out_of_stock <- get_default flags "outOfStock" (PyBool false) ;;
  Ok (negb (truthy out_of_stock)).

(** [int(x or 0)] *)
Definition int_or_0 (w : World) (x : value) : result py_error Z :=
  py_int w (if truthy x then x else PyInt 0).

(** Lines 102 to 160, in the order the source evaluates them. *)
Definition map_fields (w : World) (raw_data : value)
  : result py_error ProductResponse :=
  data <- effective_record raw_data ;;
  title <- map_title data ;;
  primary_image <- map_primary_image data ;;
  price_info <- map_price_info data ;;
  original_price <- map_original_price data price_info ;;
  discounted_price <- map_discounted_price data price_info original_price ;;
  in_stock <- map_in_stock data ;;
  original_price' <- int_or_0 w original_price ;;
  discounted_price' <- int_or_0 w discounted_price ;;
  ProductResponse_new w title primary_image original_price' discounted_price' in_stock.

(* ================================================================== *)
(** * [json.loads] *)
(* ================================================================== *)

(** The decoder of the standard library, after [json/decoder.py] and
    [json/scanner.py] (the C accelerator accepts the same documents and
    builds the same values). The functions work on the remaining suffix of
    the document instead of an index into it. *)
Module Json.

Local Open Scope N_scope.

(** Outcome of a scanning function. [NoFuel] is an artefact of the
    encoding of recursion; [loads] never meets it (see
    [JsonFacts.raw_decode_fuel]). *)
Inductive parse (A : Type) :=
| Parsed (a : A) (rest : pystr)
| Invalid
| NoFuel.
Arguments Parsed {A} a rest.
Arguments Invalid {A}.
Arguments NoFuel {A}.

(** [WHITESPACE_STR = ' \t\n\r'] *)
Definition is_ws (c : N) : bool :=
  (c =? 32) || (c =? 9) || (c =? 10) || (c =? 13).

(** [_w(s, end).end()] *)
Fixpoint skip_ws (s : pystr) : pystr :=
  match s with
  | c :: s' => if is_ws c then skip_ws s' else s
  | [] => []
  end.

Definition is_digit (c : N) : bool := (48 <=? c) && (c <=? 57).

Definition hex_val (c : N) : option N :=
  if is_digit c then Some (c - 48)
  else if (97 <=? c) && (c <=? 102) then Some (c - 87)
  else if (65 <=? c) && (c <=? 70) then Some (c - 55)
  else None.

(** [_decode_uXXXX]: exactly four hexadecimal digits. *)
Definition hex4 (a b c d : N) : option N :=
  match hex_val a, hex_val b, hex_val c, hex_val d with
  | Some x, Some y, Some z, Some t => Some (((x * 16 + y) * 16 + z) * 16 + t)
  | _, _, _, _ => None
  end.

(** [BACKSLASH] *)
Definition backslash (esc : N) : option N :=
  if esc =? 34 then Some 34          (* quote *)
  else if esc =? 92 then Some 92     (* backslash *)
  else if esc =? 47 then Some 47     (* slash *)
  else if esc =? 98 then Some 8      (* b *)
  else if esc =? 102 then Some 12    (* f *)
  else if esc =? 110 then Some 10    (* n *)
  else if esc =? 114 then Some 13    (* r *)
  else if esc =? 116 then Some 9     (* t *)
  else None.

Definition is_high_surrogate (u : N) : bool := (0xd800 <=? u) && (u <=? 0xdbff).
Definition is_low_surrogate (u : N) : bool := (0xdc00 <=? u) && (u <=? 0xdfff).

Definition join_surrogates (uni uni2 : N) : N :=
  0x10000 + N.lor (N.shiftl (uni - 0xd800) 10) (uni2 - 0xdc00).

(** [py_scanstring(s, end, strict=True)], entered just after the opening
    quote; [chunks] holds the characters decoded so far, last first. *)
Fixpoint scanstring (s : pystr) (chunks : pystr) : parse pystr :=
  match s with
  | [] => Invalid                                   (* unterminated *)
  | c :: s1 =>
      if c =? 34 then Parsed (rev chunks) s1
      else if c =? 92 then
        match s1 with
        | [] => Invalid                             (* unterminated *)
        | esc :: s2 =>
            if esc =? 117 then
              match s2 with
              | h1 :: h2 :: h3 :: h4 :: s3 =>
                  match hex4 h1 h2 h3 h4 with
                  | None => Invalid
                  | Some uni =>
                      match s3 with
                      | b :: u :: s4 =>
                          if is_high_surrogate uni && (b =? 92) && (u =? 117) then
                            match s4 with
                            | l1 :: l2 :: l3 :: l4 :: s5 =>
                                match hex4 l1 l2 l3 l4 with
                                | None => Invalid
                                | Some uni2 =>
                                    if is_low_surrogate uni2
                                    then scanstring s5 (join_surrogates uni uni2 :: chunks)
                                    else scanstring s3 (uni :: chunks)
                                end
                            | _ => Invalid
                            end
                          else scanstring s3 (uni :: chunks)
                      | _ => scanstring s3 (uni :: chunks)
                      end
                  end
              | _ => Invalid
              end
            else
              match backslash esc with
              | Some ch => scanstring s2 (ch :: chunks)
              | None => Invalid
              end
        end
      else if c <=? 31 then Invalid                 (* control character *)
      else scanstring s1 (c :: chunks)
  end.

(** ** Numbers *)

(** The longest run of decimal digits at the start of [s]. *)
Fixpoint span_digits (s : pystr) : pystr * pystr :=
  match s with
  | c :: s' =>
      if is_digit c then let (d, r) := span_digits s' in (c :: d, r)
      else ([], s)
  | [] => ([], [])
  end.

(** The integer part: a single 0, or a non-zero digit followed by digits. *)
Definition match_integer (s : pystr) : option (pystr * pystr) :=
  match s with
  | c :: s' =>
      if c =? 48 then Some ([c], s')
      else if is_digit c then let (d, r) := span_digits s' in Some (c :: d, r)
      else None
  | [] => None
  end.

(** The optional fraction, a dot and at least one digit: its digits. *)
Definition match_frac (s : pystr) : option (pystr * pystr) :=
  match s with
  | c :: s' =>
      if c =? 46 then
        match span_digits s' with
        | ([], _) => None
        | (d, r) => Some (d, r)
        end
      else None
  | [] => None
  end.

(** The optional exponent, e or E, an optional sign and at least one
    digit: its sign and digits. *)
Definition match_exp (s : pystr) : option (bool * pystr * pystr) :=
  match s with
  | c :: s' =>
      if (c =? 101) || (c =? 69) then
        let (neg, s'') :=
          match s' with
          | sg :: s2 =>
              if sg =? 45 then (true, s2)
              else if sg =? 43 then (false, s2)
              else (false, s')
          | [] => (false, s')
          end in
        match span_digits s'' with
        | ([], _) => None
        | (d, r) => Some (neg, d, r)
        end
      else None
  | [] => None
  end.

(** The value of a run of decimal digits. *)
Definition Z_of_digits (d : pystr) : Z :=
  fold_left (fun a c => (10 * a + Z.of_N (c - 48))%Z) d 0%Z.

(** [float(text)] for [text = [-]int[.frac][e exp]]: the binary64 number
    nearest to the decimal (ties to even), infinite on overflow. *)
Definition float_of_decimal (neg : bool) (int frac : pystr) (exp : Z)
  : spec_float :=
  let m := Z_of_digits (int ++ frac) in
  let e := (exp - Z.of_nat (List.length frac))%Z in
  match m with
  | Zpos p =>
      match e with
      | Zneg k =>
          SFdiv 53 1024 (S754_finite neg p 0)
                        (S754_finite false (Pos.pow 10 k) 0)
      | _ => binary_normalize 53 1024 (if neg then - (m * 10 ^ e) else m * 10 ^ e)%Z 0 false
      end
  | _ => S754_zero neg
  end.

(** The groups of [NUMBER_RE] after the sign, and the conversion that
    follows the match in [_scan_once]: [int] when neither a fraction nor
    an exponent is there, [float] otherwise. *)
Definition match_unsigned (neg : bool) (s0 : pystr) : option (value * pystr) :=
  match match_integer s0 with
  | None => None
  | Some (int, s1) =>
      match match_frac s1 with
      | Some (frac, s2) =>
          match match_exp s2 with
          | Some (sg, ed, s3) =>
              Some (PyFloat (float_of_decimal neg int frac
                               (if sg : bool then - Z_of_digits ed else Z_of_digits ed)%Z),
                    s3)
          | None => Some (PyFloat (float_of_decimal neg int frac 0), s2)
          end
      | None =>
          match match_exp s1 with
          | Some (sg, ed, s3) =>
              Some (PyFloat (float_of_decimal neg int []
                               (if sg : bool then - Z_of_digits ed else Z_of_digits ed)%Z),
                    s3)
          | None =>
              Some (PyInt (if neg then - Z_of_digits int else Z_of_digits int)%Z, s1)
          end
      end
  end.

(** [NUMBER_RE.match]: an optional minus sign, then the groups. *)
Definition match_number (s : pystr) : option (value * pystr) :=
  match s with
  | c :: s' => if c =? 45 then match_unsigned true s' else match_unsigned false s
  | [] => None
  end.

(** ** Values *)

(** [string[idx:idx + n] == lit], and the rest after it. *)
Definition literal (lit : string) (s : pystr) : option pystr :=
  if startswith (py lit) s then Some (skipn (String.length lit) s) else None.

(** After a value of an object: the closing brace, or a comma and the
    opening quote of the next key. *)
Inductive after_value :=
| Close (rest : pystr)
| More (rest : pystr)
| Bad.

Definition object_next (s : pystr) : after_value :=
  match skip_ws s with
  | c :: s1 =>
      if c =? 125 then Close s1
      else if c =? 44 then
        match skip_ws s1 with
        | q :: s2 => if q =? 34 then More s2 else Bad
        | [] => Bad
        end
      else Bad
  | [] => Bad
  end.

(** After a value of an array: the closing bracket, or a comma. *)
Definition array_next (s : pystr) : after_value :=
  match skip_ws s with
  | c :: s1 =>
      if c =? 93 then Close s1
      else if c =? 44 then More (skip_ws s1)
      else Bad
  | [] => Bad
  end.

(** The colon between a key and its value. *)
Definition colon (s : pystr) : option pystr :=
  match skip_ws s with
  | c :: s1 => if c =? 58 then Some (skip_ws s1) else None
  | [] => None
  end.

(** The body of [_scan_once] on a text that starts with [c]: the
    dispatch on the first character. [pairs_loop] and [items_loop] are the
    loops of [JSONObject] and [JSONArray], which the two branches enter
    after the look-ahead for an empty object or array. *)
Definition scan_step
    (pairs_loop : pystr -> list (pystr * value) -> parse value)
    (items_loop : pystr -> list value -> parse value)
    (c : N) (s' : pystr) : parse value :=
  if c =? 34 then
    match scanstring s' [] with
    | Parsed str r => Parsed (PyStr str) r
    | Invalid => Invalid
    | NoFuel => NoFuel
    end
  else if c =? 123 then
    (* JSONObject *)
    match skip_ws s' with
    | c1 :: s1 =>
        if c1 =? 125 then Parsed (PyDict []) s1
        else if c1 =? 34 then pairs_loop s1 []
        else Invalid
    | [] => Invalid
    end
  else if c =? 91 then
    (* JSONArray *)
    match skip_ws s' with
    | c1 :: s1 =>
        if c1 =? 93 then Parsed (PyList []) s1
        else items_loop (c1 :: s1) []
    | [] => Invalid
    end
  else
    match literal "null" (c :: s') with
    | Some r => Parsed PyNone r
    | None =>
    match literal "true" (c :: s') with
    | Some r => Parsed (PyBool true) r
    | None =>
    match literal "false" (c :: s') with
    | Some r => Parsed (PyBool false) r
    | None =>
    match match_number (c :: s') with
    | Some (v, r) => Parsed v r
    | None =>
    match literal "NaN" (c :: s') with
    | Some r => Parsed (PyFloat S754_nan) r
    | None =>
    match literal "Infinity" (c :: s') with
    | Some r => Parsed (PyFloat (S754_infinity false)) r
    | None =>
    match literal "-Infinity" (c :: s') with
    | Some r => Parsed (PyFloat (S754_infinity true)) r
    | None => Invalid
    end end end end end end end.

(** The text after a number cannot continue it: it starts with a
    character that is no digit, dot or exponent mark. *)
Definition number_stop (r : pystr) : bool :=
  match r with
  | c :: _ => negb (is_digit c || (c =? 46) || (c =? 101) || (c =? 69))
  | [] => false
  end.

(** [_scan_once], with the loops of [JSONObject] and [JSONArray].
    [scan_once] receives the text at the value; [object_pairs] the text
    just after the opening quote of a key, with the pairs read so far;
    [array_items] the text at an item, with the items read so far. *)
Fixpoint scan_once (fuel : nat) (s : pystr) {struct fuel} : parse value :=
  match fuel with
  | O => NoFuel
  | S fuel' =>
      match s with
      | [] => Invalid
      | c :: s' => scan_step (object_pairs fuel') (array_items fuel') c s'
      end
  end

with object_pairs (fuel : nat) (s : pystr) (pairs : list (pystr * value))
       {struct fuel} : parse value :=
  match fuel with
  | O => NoFuel
  | S fuel' =>
      match scanstring s [] with
      | Parsed key s1 =>
          match colon s1 with
          | Some s2 =>
              match scan_once fuel' s2 with
              | Parsed v s3 =>
                  let pairs' := pairs ++ [(key, v)] in
                  match object_next s3 with
                  | Close r => Parsed (PyDict (dict_of_pairs pairs')) r
                  | More s4 => object_pairs fuel' s4 pairs'
                  | Bad => Invalid
                  end
              | Invalid => Invalid
              | NoFuel => NoFuel
              end
          | None => Invalid
          end
      | Invalid => Invalid
      | NoFuel => NoFuel
      end
  end

with array_items (fuel : nat) (s : pystr) (values : list value)
       {struct fuel} : parse value :=
  match fuel with
  | O => NoFuel
  | S fuel' =>
      match scan_once fuel' s with
      | Parsed v s1 =>
          let values' := values ++ [v] in
          match array_next s1 with
          | Close r => Parsed (PyList values') r
          | More s2 => array_items fuel' s2 values'
          | Bad => Invalid
          end
      | Invalid => Invalid
      | NoFuel => NoFuel
      end
  end.

(** [JSONDecoder.raw_decode(s, idx=_w(s, 0).end())]. Every call in the
    recursion of [scan_once] consumes a character, and no more than two
    calls are spent on one: twice the length of the text bounds it. *)
Definition raw_decode (s : pystr) : parse value :=
  scan_once (S (2 * List.length s)) (skip_ws s).

(** [json.loads(s)]: [JSONDecoder.decode], which refuses anything but
    white space after the value. *)
Definition loads (s : pystr) : result py_error value :=
  match raw_decode s with
  | Parsed obj rest =>
      match skip_ws rest with
      | [] => Ok obj
      | _ :: _ => Raise JSONDecodeError           (* "Extra data" *)
      end
  | Invalid => Raise JSONDecodeError
  | NoFuel => Raise RecursionError
  end.

End Json.

(** A literal in which every apostrophe stands for a double quote. *)
Definition pyq (s : string) : pystr :=
  List.map (fun c => if N.eqb c 39 then 34%N else c) (py s).

(* ================================================================== *)
(** * [fetch_myntra_product] *)
(* ================================================================== *)

Definition HEADERS : list (string * string) :=
  [ ("User-Agent",
     "Mozilla/5.0 (Windows NT 10.0; Win64; x64) AppleWebKit/537.36 (KHTML, like Gecko) Chrome/122.0.6261.94 Safari/537.36");
    ("accept",
     "text/html,application/xhtml+xml,application/xml;q=0.9,image/avif,image/webp,*/*;q=0.8");
    ("accept-language", "en-US,en;q=0.9");
    ("cache-control", "no-cache");
    ("pragma", "no-cache");
    ("sec-fetch-dest", "document");
    ("sec-fetch-mode", "navigate");
    ("sec-fetch-site", "none");
    ("sec-fetch-user", "?1");
    ("upgrade-insecure-requests", "1") ]%string.

(** The observable effect of the handler: a call of [requests.get]. *)
Inductive event :=
| HttpGet (url : pystr) (headers : list (string * string)) (timeout : Z).

(** Step 3: the text of the first script that contains the marker. *)
Definition locate_script (script_texts : list pystr) : option pystr :=
  List.find (fun text => contains (py "pdpData") text) script_texts.

(** The body of the [try] of step 4:
    [json.loads(script_text[script_text.index("{"):])]. *)
Definition extract_json (script_text : pystr) : result py_error value :=
  match find (py "{") script_text with
  | None => Raise ValueError_substring_not_found
  | Some i => Json.loads (slice_from i script_text)
  end.

(** Lines 76 to 160: from the page text to the response. Exceptions
    of the mapping are not caught here. *)
Definition locate_and_map (w : World) (html : pystr) : result exn ProductResponse :=
  match locate_script (soup_script_texts w html) with
  | None | Some [] =>
      Raise (HTTPException 500
               (mkDetail "Unable to locate product data (pdpData) in page" ArgNone))
  | Some script_text =>
      match extract_json script_text with
      | Raise e =>
          Raise (HTTPException 500
                   (mkDetail "Failed to parse product JSON: " (ArgErr e)))
      | Ok raw_data =>
          match map_fields w raw_data with
          | Ok r => Ok r
          | Raise e => Raise (Uncaught e)
          end
      end
  end.

(** Lines 63 to 160: what is done with the response of [requests.get]. *)
Definition handle_response (w : World) (resp : Response) : result exn ProductResponse :=
  if negb (status_code resp =? 200) then
    Raise (HTTPException (status_code resp)
             (mkDetail "Myntra returned HTTP " (ArgInt (status_code resp))))
  else
    let html := text resp in
    if contains (py "Access Denied") html || contains (py "You don't have permission") html
    then
      Raise (HTTPException 403
               (mkDetail "Myntra blocked the request (Access Denied). Try again or use another proxy."
                         ArgNone))
    else locate_and_map w html.

(** The handler: the calls of [requests.get] it made, and its outcome. *)
Definition fetch_myntra_product (w : World) (url : pystr)
  : list event * result exn ProductResponse :=
  match urlparse_netloc w url with
  | None => ([], Raise (Uncaught ValueError))
  | Some netloc =>
      if negb (contains (py "myntra.com") netloc) then
        ([], Raise (HTTPException 400
                      (mkDetail "Only myntra.com product URLs are supported" ArgNone)))
      else
        ([HttpGet url HEADERS 10],
         match requests_get w url with
         | inl e =>
             Raise (HTTPException 502
                      (mkDetail "Network error while fetching Myntra page: "
                                (ArgErr (RequestException e))))
         | inr resp => handle_response w resp
         end)
  end.

(** The endpoint hands the URL of the payload to the handler. *)
Definition get_myntra_product (w : World) (payload : ProductRequest)
  : list event * result exn ProductResponse :=
  fetch_myntra_product w (url payload).

(* ================================================================== *)
(** * Worlds used in examples *)
(* ================================================================== *)

(** [int(s)] on plain ASCII numerals (an optional sign, then digits),
    which is all the examples below need. *)
Definition int_of_plain_numeral (s : pystr) : option Z :=
  let (neg, d) :=
    match s with
    | c :: s' => if N.eqb c 45 then (true, s') else if N.eqb c 43 then (false, s') else (false, s)
    | [] => (false, s)
    end in
  match d with
  | [] => None
  | _ :: _ =>
      if forallb Json.is_digit d
      then Some (if neg then - Json.Z_of_digits d else Json.Z_of_digits d)
      else None
  end.

(** A pydantic [str] field in strict reading: only a [str] is accepted. *)
Definition str_only (v : value) : option pystr :=
  match v with PyStr s => Some s | _ => None end.

(** [urlparse(url).netloc] for a URL written as scheme, colon, two
    slashes and the rest: the text after the slashes up to the first slash,
    question mark or hash. *)
Fixpoint until_path (s : pystr) : pystr :=
  match s with
  | [] => []
  | x :: s' =>
      if N.eqb x 47 || N.eqb x 63 || N.eqb x 35 then [] else x :: until_path s'
  end.

Definition netloc_of (url : pystr) : option pystr :=
  match find (py "://") url with
  | Some i => Some (until_path (skipn (i + 3) url))
  | None => Some []
  end.

(** A world in which every request gets the given answer and every page
    has the given scripts. *)
Definition fixed_world (answer : pystr + Response) (scripts : list pystr) : World :=
  {| urlparse_netloc := netloc_of;
     requests_get := fun _ => answer;
     soup_script_texts := fun _ => scripts;
     int_of_str := int_of_plain_numeral;
     pydantic_str := str_only;
     pydantic_str_str := fun s => eq_refl |}.

(** A page served with status 200 whose scripts are [scripts]. *)
Definition page_world (scripts : list pystr) : World :=
  fixed_world (inr (mkResponse 200 (py "<html></html>"))) scripts.

(** The URL of the examples. *)
Definition shoe_url : pystr := py "https://www.myntra.com/shoe/1".

(** A URL of another host, with the marker in its user information. *)
Definition userinfo_url : pystr := py "https://myntra.com@shop.example/shoe/1".

(** A world that answers with the given status and body. *)
Definition answering_world (status : Z) (body : string) : World :=
  fixed_world (inr (mkResponse status (py body))) [].

(** [t] is the first of [texts] that contains the marker token. *)
Definition first_marker_script (texts : list pystr) (t : pystr) : Prop :=
  exists before after,
    texts = before ++ t :: after
    /\ contains (py "pdpData") t = true
    /\ forall t', In t' before -> contains (py "pdpData") t' = false.


(** ** Vocabulary of the statements *)

Definition is_dict (v : value) : bool :=
  match v with PyDict _ => true | _ => false end.

(** The places where the traversal needs a mapping and the decoded value
    has something else: the effective record itself, the first album, the
    first image of the first album. *)
Inductive not_a_mapping : value -> Prop :=
| bad_record data :
    is_dict data = false -> not_a_mapping data
| bad_album d media album albums :
    lookup (py "media") d = Some (PyDict media) ->
    lookup (py "albums") media = Some (PyList (album :: albums)) ->
    is_dict album = false ->
    not_a_mapping (PyDict d)
| bad_image d media album albums img images :
    lookup (py "media") d = Some (PyDict media) ->
    lookup (py "albums") media = Some (PyList (PyDict album :: albums)) ->
    lookup (py "images") album = Some (PyList (img :: images)) ->
    is_dict img = false ->
    not_a_mapping (PyDict d).

(** ** The statements of the specification that the code does not meet,
    as they are worded there *)

(** The failure the specification calls UnsupportedDomain. *)
Definition unsupported_domain : exn :=
  HTTPException 400 (mkDetail "Only myntra.com product URLs are supported" ArgNone).

(** A URL whose host does not contain the domain is refused before any
    request is made. *)
Definition host_validated_as_stated (w : World) (url : pystr) : Prop :=
  forall netloc,
    urlparse_netloc w url = Some netloc ->
    contains (py "myntra.com") (hostname netloc) = false ->
    fetch_myntra_product w url = ([], Raise unsupported_domain).

(** The failure the specification calls UpstreamBlocked. *)
Definition upstream_blocked : exn :=
  HTTPException 403
    (mkDetail "Myntra blocked the request (Access Denied). Try again or use another proxy."
              ArgNone).

(** A response with status 403 whose body contains the blocking phrase is
    reported as UpstreamBlocked. *)
Definition blocked_403_as_stated (w : World) (url : pystr) : Prop :=
  forall netloc resp,
    urlparse_netloc w url = Some netloc ->
    contains (py "myntra.com") netloc = true ->
    requests_get w url = inr resp ->
    status_code resp = 403 ->
    contains (py "Access Denied") (text resp) = true ->
    snd (fetch_myntra_product w url) = Raise upstream_blocked.

(** The request for [url] gets as far as the mapping, which receives the
    decoded value [raw_data]. *)
Definition reaches_mapping (w : World) (url : pystr) (raw_data : value) : Prop :=
  exists netloc resp script_text,
    urlparse_netloc w url = Some netloc
    /\ contains (py "myntra.com") netloc = true
    /\ requests_get w url = inr resp
    /\ status_code resp = 200
    /\ contains (py "Access Denied") (text resp) = false
    /\ contains (py "You don't have permission") (text resp) = false
    /\ locate_script (soup_script_texts w (text resp)) = Some script_text
    /\ extract_json script_text = Ok raw_data.

(** A decoded value that is not a mapping where the traversal needs one
    makes the handler fail with an [HTTPException] of status 500. *)
Definition schema_mismatch_as_stated (w : World) (url : pystr) : Prop :=
  forall raw_data data,
    reaches_mapping w url raw_data ->
    effective_record raw_data = Ok data ->
    not_a_mapping data ->
    exists detail, snd (fetch_myntra_product w url) = Raise (HTTPException 500 detail).

(** Both prices of a returned record are non-negative. *)
Definition prices_non_negative_as_stated (w : World) (raw_data : value) : Prop :=
  forall r, map_fields w raw_data = Ok r ->
            0 <= original_price r /\ 0 <= discounted_price r.

(** The mapping descends into the value of the key [pdpData] whenever the
    key is there. *)
Definition descends_as_stated (raw_data : list (pystr * value)) : Prop :=
  forall v, lookup (py "pdpData") raw_data = Some v ->
            effective_record (PyDict raw_data) = Ok v.

(** The value under key [k] of [x], when there is one, is falsy. *)
Definition falsy_at (x : value) (k : string) : Prop :=
  forall v, get x k = Ok v -> truthy v = false.

(** A value that cannot put a negative price into the record: anything
    but a number below zero and a non-empty string (what [int()] makes of
    a string is its numeral, which may be negative). *)
Definition price_safe (v : value) : bool :=
  match v with
  | PyInt n => 0 <=? n
  | PyFloat (S754_finite true _ _) => false
  | PyStr (_ :: _) => false
  | _ => true
  end.

Definition price_safe_at (x : value) (k : string) : Prop :=
  forall v, get x k = Ok v -> price_safe v = true.

(** A script whose decoded record has a number where the first album
    should be. *)
Definition album_script : pystr :=
  pyq "window.__myx = {'pdpData':{'name':'Shoe','media':{'albums':[7]}}}".

(** A script whose decoded record has a negative price. *)
Definition negative_mrp_script : pystr :=
  pyq "var pdpData={'name':'Shoe','mrp':-5}".

(** The text of the script of the scenario. *)
Definition shoe_script : pystr :=
  pyq "var pdpData={'name':'Shoe','mrp':2000,'price':{'effective':1500},'flags':{'outOfStock':true}}".

(** A world with two pages: on the page "A" the script of the scenario
    comes first, on every other page it follows a script without the
    marker and precedes one with it. *)
Definition two_page_world : World :=
  {| urlparse_netloc := netloc_of;
     requests_get := fun _ => inr (mkResponse 200 (py "A"));
     soup_script_texts :=
       fun html =>
         if PyStr.eqb html (py "A")
         then [shoe_script; album_script]
         else [py "window.dataLayer = []"; shoe_script; negative_mrp_script];
     int_of_str := int_of_plain_numeral;
     pydantic_str := str_only;
     pydantic_str_str := fun s => eq_refl |}.

(** The failure raised when no script holds the marker. *)
Definition unable_to_locate : exn :=
  HTTPException 500
    (mkDetail "Unable to locate product data (pdpData) in page" ArgNone).

(** What leaves the handler once the mapping has run on the decoded
    value: its record, or its exception, uncaught. *)
Definition mapped (w : World) (raw_data : value) : result exn ProductResponse :=
  match map_fields w raw_data with
  | Ok r => Ok r
  | Raise e => Raise (Uncaught e)
  end.

(** The failure the specification calls DataBlobParseError. *)
Definition parse_error (e : py_error) : exn :=
  HTTPException 500 (mkDetail "Failed to parse product JSON: " (ArgErr e)).

(* ================================================================== *)
(** * Strings: containment and search *)
(* ================================================================== *)

Section StringFacts.

Lemma contains_find sub s :
  contains sub s = true <-> exists i, find sub s = Some i.
Proof.
  unfold contains. destruct (find sub s) as [i|].
  - split; [eauto | reflexivity].
  - split; [discriminate | intros [i H]; discriminate].
Qed.

(** A one-character needle is found exactly when it is an element. *)
Lemma find_char_None c s :
  find [c] s = None <-> ~ In c s.
Proof.
  induction s as [|x s IH]; simpl.
  - split; [tauto | reflexivity].
  - destruct (N.eqb_spec c x) as [->|Hne]; simpl.
    + split; [discriminate | intros H; exfalso; apply H; now left].
    + destruct (find [c] s) as [i|] eqn:E; simpl.
      * split; [discriminate|]. intros H. exfalso.
        destruct IH as [_ IH]. 
        assert (Some i = None) by (apply IH; intros Hin; apply H; now right).
        discriminate.
      * split; [|reflexivity]. intros _ [Heq|Hin]; [congruence|].
        destruct IH as [IH _]. now apply IH.
Qed.

(** [s[s.index(c):]] starts with [c]. *)
Lemma find_char_slice c s i :
  find [c] s = Some i -> exists r, slice_from i s = c :: r.
Proof.
  revert i. induction s as [|x s IH]; simpl; intros i H.
  - discriminate.
  - destruct (N.eqb_spec c x) as [->|Hne]; simpl in H.
    + inversion H; subst. now exists s.
    + destruct (find [c] s) as [j|]; simpl in H; [|discriminate].
      inversion H; subst. simpl. now apply IH.
Qed.

End StringFacts.

Lemma locate_script_first texts t :
  locate_script texts = Some t <-> first_marker_script texts t.
Proof.
  unfold locate_script, first_marker_script. split.
  - induction texts as [|x texts IH]; simpl; [discriminate|].
    destruct (contains (py "pdpData") x) eqn:E.
    + intros H; inversion H; subst. exists [], texts. simpl; repeat split; auto.
      intros ? [].
    + intros H. destruct (IH H) as (b & a & -> & Ht & Hb).
      exists (x :: b), a. repeat split; auto.
      intros t' [<-|Hin]; auto.
  - intros (b & a & -> & Ht & Hb). induction b as [|x b IH]; simpl.
    + now rewrite Ht.
    + rewrite (Hb x) by now left. apply IH. intros t' Hin. apply Hb. now right.
Qed.

Lemma marker_script_nonempty t :
  contains (py "pdpData") t = true -> t <> [].
Proof. intros H ->. discriminate. Qed.

(* ================================================================== *)
(** * The decoder: consumption, fuel, and text after the value *)
(* ================================================================== *)

Module JsonFacts.
Import Json.

Local Open Scope nat_scope.

(** ** White space *)

Lemma skip_ws_length s : List.length (skip_ws s) <= List.length s.
Proof.
  induction s as [|c s IH]; simpl; [lia|].
  destruct (is_ws c); simpl; lia.
Qed.

Lemma skip_ws_cons_app s c r t :
  skip_ws s = c :: r -> skip_ws (s ++ t) = c :: r ++ t.
Proof.
  induction s as [|x s IH]; simpl; [discriminate|].
  destruct (is_ws x); [exact IH|].
  intros H; inversion H; subst. reflexivity.
Qed.

Lemma skip_ws_nil_app s t :
  skip_ws s = [] -> skip_ws (s ++ t) = skip_ws t.
Proof.
  induction s as [|x s IH]; simpl; [reflexivity|].
  destruct (is_ws x); [exact IH | discriminate].
Qed.

Lemma skip_ws_head s c r :
  skip_ws s = c :: r -> is_ws c = false.
Proof.
  induction s as [|x s IH]; simpl; [discriminate|].
  destruct (is_ws x) eqn:E; [exact IH|].
  intros H; inversion H; subst. exact E.
Qed.

(** ** Literals *)

Lemma startswith_app p s :
  startswith p s = true -> s = p ++ skipn (List.length p) s.
Proof.
  revert s. induction p as [|x p IH]; intros s; simpl; [reflexivity|].
  destruct s as [|y s]; [discriminate|].
  destruct (N.eqb_spec x y) as [->|]; simpl; [|discriminate].
  intros H. f_equal. now apply IH.
Qed.

Lemma py_length lit : List.length (py lit) = String.length lit.
Proof.
  unfold py. rewrite length_map.
  induction lit; simpl; [reflexivity | now f_equal].
Qed.

Lemma literal_Some lit s r :
  literal lit s = Some r -> s = py lit ++ r.
Proof.
  unfold literal. destruct (startswith (py lit) s) eqn:E; [|discriminate].
  intros H; inversion H; subst. rewrite <- py_length. now apply startswith_app.
Qed.

(** ** Strings *)

Lemma scanstring_spec n :
  forall s chunks str r,
    List.length s <= n ->
    scanstring s chunks = Parsed str r ->
    List.length r < List.length s
    /\ forall t, scanstring (s ++ t) chunks = Parsed str (r ++ t).
Proof.
  induction n as [|n IH]; intros s chunks str r Hn H.
  - destruct s; [discriminate H | simpl in Hn; lia].
  - destruct s as [|c s1]; [discriminate H|]. simpl in Hn, H.
    cbn [app scanstring].
    destruct (N.eqb c 34) eqn:E34.
    { inversion H; subst. split; [simpl; lia | reflexivity]. }
    destruct (N.eqb c 92) eqn:E92.
    2:{ destruct (N.leb c 31); [discriminate H|].
        destruct (IH s1 _ _ _ ltac:(lia) H) as [Hl Ha].
        split; [simpl; lia | exact Ha]. }
    destruct s1 as [|esc s2]; [discriminate H|]. simpl in Hn. cbn [app].
    destruct (N.eqb esc 117) eqn:E117.
    2:{ destruct (backslash esc); [|discriminate H].
        destruct (IH s2 _ _ _ ltac:(lia) H) as [Hl Ha].
        split; [simpl; lia | exact Ha]. }
    destruct s2 as [|h1 [|h2 [|h3 [|h4 s3]]]]; try discriminate H.
    simpl in Hn. cbn [app].
    destruct (hex4 h1 h2 h3 h4) as [uni|]; [|discriminate H].
    destruct s3 as [|b [|u s4]].
    + destruct (IH [] _ _ _ ltac:(simpl; lia) H) as [Hl Ha]. simpl in Hl. lia.
    + destruct (IH [b] _ _ _ ltac:(simpl; lia) H) as [Hl Ha].
      split; [simpl in *; lia|]. intros t.
      assert (r = []) as -> by (destruct r; [reflexivity | simpl in Hl; lia]).
      (* the text stops one character after the escape: that character is
         the closing quote *)
      simpl in H. destruct (N.eqb b 34) eqn:Eb; [|].
      * inversion H; subst. destruct t as [|t0 t]; simpl; rewrite Eb; try reflexivity.
        destruct (is_high_surrogate uni && (b =? 92)%N && (t0 =? 117)%N) eqn:Eh;
          [|reflexivity].
        apply N.eqb_eq in Eb. subst b.
        rewrite andb_false_r in Eh. discriminate Eh.
      * destruct (N.eqb b 92); [discriminate H|].
        destruct (N.leb b 31); discriminate H.
    + simpl in Hn. cbn [app].
      destruct (is_high_surrogate uni && (b =? 92)%N && (u =? 117)%N) eqn:Eh.
      * destruct s4 as [|l1 [|l2 [|l3 [|l4 s5]]]]; try discriminate H.
        simpl in Hn. cbn [app].
        destruct (hex4 l1 l2 l3 l4) as [uni2|]; [|discriminate H].
        destruct (is_low_surrogate uni2).
        -- destruct (IH s5 _ _ _ ltac:(lia) H) as [Hl Ha].
           split; [simpl; lia | exact Ha].
        -- destruct (IH (b :: u :: l1 :: l2 :: l3 :: l4 :: s5) _ _ _
                       ltac:(simpl; lia) H) as [Hl Ha].
           split; [simpl in *; lia | exact Ha].
      * destruct (IH (b :: u :: s4) _ _ _ ltac:(simpl; lia) H) as [Hl Ha].
        split; [simpl in *; lia | exact Ha].
Qed.

Lemma scanstring_length s chunks str r :
  scanstring s chunks = Parsed str r -> List.length r < List.length s.
Proof. intros H. now apply (scanstring_spec (List.length s) s chunks str r). Qed.

Lemma scanstring_app s chunks str r t :
  scanstring s chunks = Parsed str r -> scanstring (s ++ t) chunks = Parsed str (r ++ t).
Proof. intros H. now apply (scanstring_spec (List.length s) s chunks str r). Qed.

Lemma scanstring_fuel s chunks : scanstring s chunks <> NoFuel.
Proof.
  remember (List.length s) as n eqn:Hn.
  assert (Hle : List.length s <= n) by lia. clear Hn.
  revert s chunks Hle. induction n as [|n IH]; intros s chunks Hle.
  - destruct s; [discriminate | simpl in Hle; lia].
  - destruct s as [|c s1]; [discriminate|]. simpl in Hle. cbn [scanstring].
    destruct (N.eqb c 34); [discriminate|].
    destruct (N.eqb c 92).
    2:{ destruct (N.leb c 31); [discriminate | apply IH; lia]. }
    destruct s1 as [|esc s2]; [discriminate|]. simpl in Hle.
    destruct (N.eqb esc 117).
    2:{ destruct (backslash esc); [apply IH; lia | discriminate]. }
    destruct s2 as [|h1 [|h2 [|h3 [|h4 s3]]]]; try discriminate.
    simpl in Hle.
    destruct (hex4 h1 h2 h3 h4) as [uni|]; [|discriminate].
    destruct s3 as [|b [|u s4]]; try (apply IH; simpl; lia).
    simpl in Hle.
    destruct (is_high_surrogate uni && (b =? 92)%N && (u =? 117)%N);
      [|apply IH; simpl; lia].
    destruct s4 as [|l1 [|l2 [|l3 [|l4 s5]]]]; try discriminate.
    simpl in Hle.
    destruct (hex4 l1 l2 l3 l4) as [uni2|]; [|discriminate].
    destruct (is_low_surrogate uni2); apply IH; simpl; lia.
Qed.

(** ** Numbers *)

Lemma span_digits_length s d r :
  span_digits s = (d, r) -> List.length r <= List.length s.
Proof.
  revert d r. induction s as [|c s IH]; simpl; intros d r H.
  - inversion H; subst; simpl; lia.
  - destruct (is_digit c).
    + destruct (span_digits s) as [d' r'] eqn:E. inversion H; subst.
      specialize (IH _ _ eq_refl). lia.
    + inversion H; subst; simpl; lia.
Qed.

Lemma span_digits_app s d c r t :
  span_digits s = (d, c :: r) -> span_digits (s ++ t) = (d, c :: r ++ t).
Proof.
  revert d. induction s as [|x s IH]; simpl; intros d H; [discriminate|].
  destruct (is_digit x).
  - destruct (span_digits s) as [d' r'] eqn:E. inversion H; subst.
    now rewrite (IH _ eq_refl).
  - inversion H; subst. reflexivity.
Qed.

Lemma match_integer_length s d r :
  match_integer s = Some (d, r) -> List.length r < List.length s.
Proof.
  destruct s as [|c s]; simpl; [discriminate|].
  destruct (c =? 48)%N.
  - intros H; inversion H; subst; lia.
  - destruct (is_digit c); [|discriminate].
    destruct (span_digits s) as [d' r'] eqn:E. intros H; inversion H; subst.
    apply span_digits_length in E. lia.
Qed.

Lemma match_integer_app s d c r t :
  match_integer s = Some (d, c :: r) ->
  match_integer (s ++ t) = Some (d, c :: r ++ t).
Proof.
  destruct s as [|x s]; simpl; [discriminate|].
  destruct (x =? 48)%N.
  - intros H; inversion H; subst. reflexivity.
  - destruct (is_digit x); [|discriminate].
    destruct (span_digits s) as [d' r'] eqn:E. intros H; inversion H; subst.
    now rewrite (span_digits_app _ _ _ _ t E).
Qed.

Lemma match_frac_length s d r :
  match_frac s = Some (d, r) -> List.length r < List.length s.
Proof.
  destruct s as [|c s]; simpl; [discriminate|].
  destruct (c =? 46)%N; [|discriminate].
  destruct (span_digits s) as [d' r'] eqn:E. apply span_digits_length in E.
  destruct d'; [discriminate|]. intros H; inversion H; subst. lia.
Qed.

Lemma match_frac_app s d c r t :
  match_frac s = Some (d, c :: r) ->
  match_frac (s ++ t) = Some (d, c :: r ++ t).
Proof.
  destruct s as [|x s]; simpl; [discriminate|].
  destruct (x =? 46)%N; [|discriminate].
  destruct (span_digits s) as [d' r'] eqn:E.
  destruct d'; [discriminate|]. intros H; inversion H; subst.
  now rewrite (span_digits_app _ _ _ _ t E).
Qed.

Lemma match_frac_None_app c s t :
  (c =? 46)%N = false -> match_frac ((c :: s) ++ t) = None.
Proof. simpl. now intros ->. Qed.

Lemma match_exp_length s sg d r :
  match_exp s = Some (sg, d, r) -> List.length r < List.length s.
Proof.
  destruct s as [|c s]; simpl; [discriminate|].
  destruct ((c =? 101)%N || (c =? 69)%N); [|discriminate].
  destruct s as [|x s'].
  - simpl. discriminate.
  - destruct (x =? 45)%N; [|destruct (x =? 43)%N].
    + destruct (span_digits s') as [d' r'] eqn:E. apply span_digits_length in E.
      destruct d'; [discriminate|]. intros H; inversion H; subst. simpl; lia.
    + destruct (span_digits s') as [d' r'] eqn:E. apply span_digits_length in E.
      destruct d'; [discriminate|]. intros H; inversion H; subst. simpl; lia.
    + destruct (span_digits (x :: s')) as [d' r'] eqn:E. apply span_digits_length in E.
      destruct d'; [discriminate|]. intros H; inversion H; subst. simpl in *; lia.
Qed.

Lemma match_exp_app s sg d c r t :
  match_exp s = Some (sg, d, c :: r) ->
  match_exp (s ++ t) = Some (sg, d, c :: r ++ t).
Proof.
  destruct s as [|x s]; simpl; [discriminate|].
  destruct ((x =? 101)%N || (x =? 69)%N); [|discriminate].
  destruct s as [|y s'].
  - simpl. discriminate.
  - cbn [app]. destruct (y =? 45)%N; [|destruct (y =? 43)%N].
    + destruct (span_digits s') as [d' r'] eqn:E.
      destruct d'; [discriminate|]. intros H; inversion H; subst.
      now rewrite (span_digits_app _ _ _ _ t E).
    + destruct (span_digits s') as [d' r'] eqn:E.
      destruct d'; [discriminate|]. intros H; inversion H; subst.
      now rewrite (span_digits_app _ _ _ _ t E).
    + destruct (span_digits (y :: s')) as [d' r'] eqn:E.
      destruct d'; [discriminate|]. intros H; inversion H; subst.
      change (y :: s' ++ t) with ((y :: s') ++ t).
      now rewrite (span_digits_app _ _ _ _ t E).
Qed.

Lemma match_exp_None_app c s t :
  ((c =? 101)%N || (c =? 69)%N) = false -> match_exp ((c :: s) ++ t) = None.
Proof. simpl. now intros ->. Qed.

Lemma number_stop_cons r :
  number_stop r = true ->
  exists c r', r = c :: r'
    /\ is_digit c = false /\ (c =? 46)%N = false
    /\ ((c =? 101)%N || (c =? 69)%N) = false.
Proof.
  destruct r as [|c r']; simpl; [discriminate|].
  intros H. apply negb_true_iff in H.
  repeat (apply orb_false_iff in H; destruct H as [H ?]).
  exists c, r'. repeat split; auto. apply orb_false_iff; auto.
Qed.

Lemma match_unsigned_length neg s v r :
  match_unsigned neg s = Some (v, r) -> List.length r < List.length s.
Proof.
  unfold match_unsigned.
  destruct (match_integer s) as [[int s1]|] eqn:Ei; [|discriminate].
  apply match_integer_length in Ei.
  destruct (match_frac s1) as [[fd s2]|] eqn:Ef.
  - apply match_frac_length in Ef.
    destruct (match_exp s2) as [[[sg ed] s3]|] eqn:Ee.
    + apply match_exp_length in Ee. intros H; inversion H; subst; lia.
    + intros H; inversion H; subst; lia.
  - destruct (match_exp s1) as [[[sg ed] s3]|] eqn:Ee.
    + apply match_exp_length in Ee. intros H; inversion H; subst; lia.
    + intros H; inversion H; subst; lia.
Qed.

Lemma match_number_length s v r :
  match_number s = Some (v, r) -> List.length r < List.length s.
Proof.
  unfold match_number. destruct s as [|c s']; [discriminate|].
  destruct (c =? 45)%N; intros H; apply match_unsigned_length in H; simpl in *; lia.
Qed.

Lemma nonempty_cons (s : pystr) :
  s <> [] -> exists y s', s = y :: s'.
Proof. destruct s; [congruence | eauto]. Qed.

Lemma match_unsigned_app neg s v r t :
  match_unsigned neg s = Some (v, r) ->
  number_stop r = true ->
  match_unsigned neg (s ++ t) = Some (v, r ++ t).
Proof.
  intros H Hstop.
  destruct (number_stop_cons _ Hstop) as (c & r' & -> & Hd & Hdot & He).
  unfold match_unsigned in *.
  destruct (match_integer s) as [[int s1]|] eqn:Ei; [|discriminate H].
  destruct (match_frac s1) as [[fd s2]|] eqn:Ef.
  - destruct (nonempty_cons s1) as (y & s1' & ->);
      [intros ->; discriminate Ef|].
    rewrite (match_integer_app _ _ _ _ t Ei).
    change (y :: s1' ++ t) with ((y :: s1') ++ t).
    destruct (match_exp s2) as [[[sg ed] s3]|] eqn:Ee.
    + inversion H; subst.
      destruct (nonempty_cons s2) as (z & s2' & ->);
        [intros ->; discriminate Ee|].
      rewrite (match_frac_app _ _ _ _ t Ef).
      change (z :: s2' ++ t) with ((z :: s2') ++ t).
      now rewrite (match_exp_app _ _ _ _ _ t Ee).
    + inversion H; subst.
      rewrite (match_frac_app _ _ _ _ t Ef).
      change (c :: r' ++ t) with ((c :: r') ++ t).
      now rewrite (match_exp_None_app _ _ t He).
  - destruct (match_exp s1) as [[[sg ed] s3]|] eqn:Ee.
    + inversion H; subst.
      destruct (nonempty_cons s1) as (y & s1' & ->);
        [intros ->; discriminate Ee|].
      assert (Hy : (y =? 46)%N = false).
      { simpl in Ee. destruct (N.eqb_spec y 46) as [->|]; [discriminate Ee | reflexivity]. }
      rewrite (match_integer_app _ _ _ _ t Ei).
      change (y :: s1' ++ t) with ((y :: s1') ++ t).
      rewrite (match_frac_None_app _ _ t Hy).
      now rewrite (match_exp_app _ _ _ _ _ t Ee).
    + inversion H; subst.
      rewrite (match_integer_app _ _ _ _ t Ei).
      change (c :: r' ++ t) with ((c :: r') ++ t).
      rewrite (match_frac_None_app _ _ t Hdot).
      now rewrite (match_exp_None_app _ _ t He).
Qed.

Lemma match_number_app s v r t :
  match_number s = Some (v, r) ->
  number_stop r = true ->
  match_number (s ++ t) = Some (v, r ++ t).
Proof.
  unfold match_number. destruct s as [|x s']; [discriminate|]. cbn [app].
  destruct (x =? 45)%N; intros H Hstop.
  - now apply match_unsigned_app.
  - now apply (match_unsigned_app false (x :: s')).
Qed.

(** A number starts with a minus sign or a digit. *)
Lemma match_number_head s v r :
  match_number s = Some (v, r) ->
  exists c s', s = c :: s' /\ ((c =? 45)%N = true \/ is_digit c = true).
Proof.
  unfold match_number. destruct s as [|c s']; [discriminate|].
  intros H. exists c, s'. split; [reflexivity|].
  destruct (c =? 45)%N eqn:E; [now left | right].
  unfold match_unsigned, match_integer in H.
  destruct (c =? 48)%N eqn:E0.
  - apply N.eqb_eq in E0. subst c. reflexivity.
  - destruct (is_digit c); [reflexivity | discriminate H].
Qed.

(** What a number is decoded to. *)
Lemma match_unsigned_value neg s v r :
  match_unsigned neg s = Some (v, r) -> is_dict v = false.
Proof.
  unfold match_unsigned.
  destruct (match_integer s) as [[int s1]|]; [|discriminate].
  destruct (match_frac s1) as [[fd s2]|];
    [destruct (match_exp s2) as [[[sg ed] s3]|]
    | destruct (match_exp s1) as [[[sg ed] s3]|]];
    intros H; inversion H; reflexivity.
Qed.

Lemma match_number_value s v r :
  match_number s = Some (v, r) -> is_dict v = false.
Proof.
  unfold match_number. destruct s as [|c s']; [discriminate|].
  destruct (c =? 45)%N; apply match_unsigned_value.
Qed.

(** ** Delimiters *)

Lemma colon_length s s2 :
  colon s = Some s2 -> List.length s2 < List.length s.
Proof.
  unfold colon. pose proof (skip_ws_length s) as Hl.
  destruct (skip_ws s) as [|c s1]; [discriminate|].
  destruct (c =? 58)%N; [|discriminate].
  intros H; inversion H; subst. pose proof (skip_ws_length s1). simpl in Hl. lia.
Qed.

Lemma colon_app s s2 t :
  colon s = Some s2 -> s2 <> [] -> colon (s ++ t) = Some (s2 ++ t).
Proof.
  unfold colon. destruct (skip_ws s) as [|c s1] eqn:E; [discriminate|].
  rewrite (skip_ws_cons_app _ _ _ t E).
  destruct (c =? 58)%N; [|discriminate].
  intros H Hne; inversion H; subst.
  destruct (skip_ws s1) as [|y s1'] eqn:E1; [congruence|].
  now rewrite (skip_ws_cons_app _ _ _ t E1).
Qed.

Lemma object_next_length s :
  match object_next s with
  | Close r | More r => List.length r < List.length s
  | Bad => True
  end.
Proof.
  unfold object_next. pose proof (skip_ws_length s) as Hl.
  destruct (skip_ws s) as [|c s1]; [exact I|]. simpl in Hl.
  destruct (c =? 125)%N; [lia|].
  destruct (c =? 44)%N; [|exact I].
  pose proof (skip_ws_length s1) as Hl1.
  destruct (skip_ws s1) as [|q s2]; [exact I|]. simpl in Hl1.
  destruct (q =? 34)%N; [lia | exact I].
Qed.

Lemma object_next_app s t :
  object_next s <> Bad ->
  object_next (s ++ t) =
    match object_next s with
    | Close r => Close (r ++ t)
    | More r => More (r ++ t)
    | Bad => Bad
    end.
Proof.
  unfold object_next. destruct (skip_ws s) as [|c s1] eqn:E; [congruence|].
  rewrite (skip_ws_cons_app _ _ _ t E).
  destruct (c =? 125)%N; [reflexivity|].
  destruct (c =? 44)%N; [|congruence].
  destruct (skip_ws s1) as [|q s2] eqn:E1; [congruence|].
  rewrite (skip_ws_cons_app _ _ _ t E1).
  destruct (q =? 34)%N; [reflexivity | congruence].
Qed.

(** White space, a comma and the closing brace or bracket end a number. *)
Lemma delimiter_stops s c r :
  skip_ws s = c :: r ->
  (c =? 125)%N || (c =? 93)%N || (c =? 44)%N = true ->
  number_stop s = true.
Proof.
  destruct s as [|x s']; simpl; [discriminate|].
  destruct (is_ws x) eqn:W.
  - intros _ _. unfold is_ws in W.
    repeat (apply orb_true_iff in W; destruct W as [W|W]);
      apply N.eqb_eq in W; subst x; reflexivity.
  - intros H Hc; inversion H; subst.
    repeat (apply orb_true_iff in Hc; destruct Hc as [Hc|Hc]);
      apply N.eqb_eq in Hc; subst c; reflexivity.
Qed.

Lemma object_next_stops s :
  object_next s <> Bad -> number_stop s = true.
Proof.
  unfold object_next. destruct (skip_ws s) as [|c s1] eqn:E; [congruence|].
  destruct (c =? 125)%N eqn:E1.
  - intros _. apply (delimiter_stops _ _ _ E). now rewrite E1.
  - destruct (c =? 44)%N eqn:E2; [|congruence].
    intros _. apply (delimiter_stops _ _ _ E). rewrite E2. now rewrite !orb_true_r.
Qed.

Lemma array_next_length s :
  match array_next s with
  | Close r | More r => List.length r < List.length s
  | Bad => True
  end.
Proof.
  unfold array_next. pose proof (skip_ws_length s) as Hl.
  destruct (skip_ws s) as [|c s1]; [exact I|]. simpl in Hl.
  destruct (c =? 93)%N; [lia|].
  destruct (c =? 44)%N; [|exact I].
  pose proof (skip_ws_length s1). lia.
Qed.

Lemma array_next_app s t :
  match array_next s with
  | Close r => array_next (s ++ t) = Close (r ++ t)
  | More r => r <> [] -> array_next (s ++ t) = More (r ++ t)
  | Bad => True
  end.
Proof.
  unfold array_next. destruct (skip_ws s) as [|c s1] eqn:E; [exact I|].
  rewrite (skip_ws_cons_app _ _ _ t E).
  destruct (c =? 93)%N; [reflexivity|].
  destruct (c =? 44)%N; [|exact I].
  intros Hne. destruct (skip_ws s1) as [|y s1'] eqn:E1; [congruence|].
  now rewrite (skip_ws_cons_app _ _ _ t E1).
Qed.

Lemma array_next_stops s :
  array_next s <> Bad -> number_stop s = true.
Proof.
  unfold array_next. destruct (skip_ws s) as [|c s1] eqn:E; [congruence|].
  destruct (c =? 93)%N eqn:E1.
  - intros _. apply (delimiter_stops _ _ _ E). rewrite E1. now rewrite orb_true_r.
  - destruct (c =? 44)%N eqn:E2; [|congruence].
    intros _. apply (delimiter_stops _ _ _ E). rewrite E2. now rewrite !orb_true_r.
Qed.

(** The three words that precede numbers in [_scan_once] do not start
    like a number. *)
Lemma literal_not_number lit c s :
  (c =? 45)%N = true \/ is_digit c = true ->
  lit = "null"%string \/ lit = "true"%string \/ lit = "false"%string ->
  literal lit (c :: s) = None.
Proof.
  intros Hc Hl. unfold literal.
  assert (Hs : forall k p, k <> c -> startswith (k :: p) (c :: s) = false).
  { intros k p Hk. cbn [startswith].
    destruct (N.eqb_spec k c); [contradiction | reflexivity]. }
  assert (Hne : c <> 110%N /\ c <> 116%N /\ c <> 102%N).
  { repeat split; intros ->; destruct Hc as [Hc|Hc]; vm_compute in Hc;
      discriminate Hc. }
  destruct Hne as (H1 & H2 & H3).
  destruct Hl as [-> | [-> | ->]].
  - change (py "null") with [110; 117; 108; 108]%N. rewrite Hs; congruence.
  - change (py "true") with [116; 114; 117; 101]%N. rewrite Hs; congruence.
  - change (py "false") with [102; 97; 108; 115; 101]%N. rewrite Hs; congruence.
Qed.

(** ** Values *)

Lemma scan_once_S fuel' c s' :
  scan_once (S fuel') (c :: s')
  = scan_step (object_pairs fuel') (array_items fuel') c s'.
Proof. reflexivity. Qed.

Lemma object_pairs_S fuel' s pairs :
  object_pairs (S fuel') s pairs =
    match scanstring s [] with
    | Parsed key s1 =>
        match colon s1 with
        | Some s2 =>
            match scan_once fuel' s2 with
            | Parsed v s3 =>
                match object_next s3 with
                | Close r => Parsed (PyDict (dict_of_pairs (pairs ++ [(key, v)]))) r
                | More s4 => object_pairs fuel' s4 (pairs ++ [(key, v)])
                | Bad => Invalid
                end
            | Invalid => Invalid
            | NoFuel => NoFuel
            end
        | None => Invalid
        end
    | Invalid => Invalid
    | NoFuel => NoFuel
    end.
Proof. reflexivity. Qed.

Lemma array_items_S fuel' s values :
  array_items (S fuel') s values =
    match scan_once fuel' s with
    | Parsed v s1 =>
        match array_next s1 with
        | Close r => Parsed (PyList (values ++ [v])) r
        | More s2 => array_items fuel' s2 (values ++ [v])
        | Bad => Invalid
        end
    | Invalid => Invalid
    | NoFuel => NoFuel
    end.
Proof. reflexivity. Qed.

(** What a successful scan has consumed, and that it yields the same
    value, with more fuel, on a longer text. For a value read by
    [scan_once] the text that follows must not continue a number. *)
Lemma scan_spec fuel :
  (forall s v r,
      scan_once fuel s = Parsed v r ->
      List.length r < List.length s
      /\ (is_dict v = true -> exists s', s = 123%N :: s')
      /\ forall t fuel2, fuel <= fuel2 -> number_stop r = true \/ is_dict v = true ->
                         scan_once fuel2 (s ++ t) = Parsed v (r ++ t))
  /\ (forall s pairs v r,
         object_pairs fuel s pairs = Parsed v r ->
         List.length r < List.length s
         /\ is_dict v = true
         /\ forall t fuel2, fuel <= fuel2 ->
                            object_pairs fuel2 (s ++ t) pairs = Parsed v (r ++ t))
  /\ (forall s values v r,
         array_items fuel s values = Parsed v r ->
         List.length r < List.length s
         /\ is_dict v = false
         /\ forall t fuel2, fuel <= fuel2 ->
                            array_items fuel2 (s ++ t) values = Parsed v (r ++ t)).
Proof.
  induction fuel as [|fuel (IHs & IHo & IHa)].
  { repeat split; intros; discriminate. }
  split; [|split].
  - (* scan_once *)
    intros s v r H. destruct s as [|c s']; [discriminate H|].
    rewrite scan_once_S in H.
    assert (Hfuel : forall t fuel2, S fuel <= fuel2 ->
              scan_once fuel2 ((c :: s') ++ t)
              = scan_step (object_pairs (pred fuel2)) (array_items (pred fuel2))
                          c (s' ++ t)).
    { intros t [|f2] Hle; [lia | reflexivity]. }
    unfold scan_step in H.
    destruct (c =? 34)%N eqn:E34.
    { destruct (scanstring s' []) as [str r0| |] eqn:Es; try discriminate H.
      inversion H; subst. split; [|split].
      - apply scanstring_length in Es. simpl; lia.
      - discriminate.
      - intros t fuel2 Hle _. rewrite Hfuel by exact Hle.
        unfold scan_step. rewrite E34.
        now rewrite (scanstring_app _ _ _ _ t Es). }
    destruct (c =? 123)%N eqn:E123.
    { apply N.eqb_eq in E123. subst c.
      pose proof (skip_ws_length s') as Hl.
      destruct (skip_ws s') as [|c1 s1] eqn:Ew; [discriminate H|]. simpl in Hl.
      destruct (c1 =? 125)%N eqn:E125.
      { inversion H; subst. split; [simpl; lia|]. split; [eauto|].
        intros t fuel2 Hle _. rewrite Hfuel by exact Hle.
        unfold scan_step. simpl (_ =? _)%N. cbv iota.
        rewrite (skip_ws_cons_app _ _ _ t Ew). now rewrite E125. }
      destruct (c1 =? 34)%N eqn:E34'; [|discriminate H].
      destruct (IHo _ _ _ _ H) as (Hlen & Hd & Happ).
      split; [simpl; lia|]. split; [eauto|].
      intros t fuel2 Hle _. rewrite Hfuel by exact Hle.
      unfold scan_step. simpl (_ =? _)%N. cbv iota.
      rewrite (skip_ws_cons_app _ _ _ t Ew). rewrite E125, E34'.
      apply Happ. lia. }
    destruct (c =? 91)%N eqn:E91.
    { pose proof (skip_ws_length s') as Hl.
      destruct (skip_ws s') as [|c1 s1] eqn:Ew; [discriminate H|]. simpl in Hl.
      destruct (c1 =? 93)%N eqn:E93.
      { inversion H; subst. split; [simpl; lia|]. split; [discriminate|].
        intros t fuel2 Hle _. rewrite Hfuel by exact Hle.
        unfold scan_step. rewrite E34, E123, E91.
        rewrite (skip_ws_cons_app _ _ _ t Ew). now rewrite E93. }
      destruct (IHa _ _ _ _ H) as (Hlen & Hd & Happ).
      split; [simpl in *; lia|]. split; [congruence|].
      intros t fuel2 Hle _. rewrite Hfuel by exact Hle.
      unfold scan_step. rewrite E34, E123, E91.
      rewrite (skip_ws_cons_app _ _ _ t Ew). rewrite E93.
      apply (Happ t). lia. }
    (* words and numbers *)
    assert (Hword : forall lit v0 r0,
              literal lit (c :: s') = Some r0 ->
              (forall f u, scan_step (object_pairs f) (array_items f)
                                     (hd 0%N (py lit)) (tl (py lit) ++ u)
                           = Parsed v0 u) ->
              String.length lit <> 0 ->
              is_dict v0 = false ->
              Parsed v0 r0 = Parsed v r ->
              List.length r < List.length (c :: s')
              /\ (is_dict v = true -> exists s'0, c :: s' = 123%N :: s'0)
              /\ (forall t fuel2, S fuel <= fuel2 ->
                    number_stop r = true \/ is_dict v = true ->
                    scan_once fuel2 ((c :: s') ++ t) = Parsed v (r ++ t))).
    { intros lit v0 r0 El Hall Hlen Hd Heq. inversion Heq; subst v0 r0.
      pose proof (literal_Some _ _ _ El) as Hs.
      split; [|split].
      - rewrite Hs, length_app, py_length. lia.
      - congruence.
      - intros t fuel2 Hle _. rewrite Hfuel by exact Hle.
        assert (Hc : c :: s' ++ t = py lit ++ r ++ t).
        { change (c :: s' ++ t) with ((c :: s') ++ t). rewrite Hs at 1.
          now rewrite <- app_assoc. }
        destruct (py lit) as [|k p] eqn:Ep.
        { apply (f_equal (@List.length N)) in Ep. rewrite py_length in Ep.
          simpl in Ep. congruence. }
        simpl in Hc. injection Hc as Hk Hc. subst k.
        rewrite Hc. apply (Hall (pred fuel2) (r ++ t)). }
    destruct (literal "null" (c :: s')) as [r0|] eqn:L1.
    { apply (Hword "null"%string PyNone r0 L1); try reflexivity; try discriminate.
      destruct (literal "true" (c :: s')), (literal "false" (c :: s')); exact H. }
    destruct (literal "true" (c :: s')) as [r0|] eqn:L2.
    { apply (Hword "true"%string (PyBool true) r0 L2); try reflexivity; try discriminate.
      destruct (literal "false" (c :: s')); exact H. }
    destruct (literal "false" (c :: s')) as [r0|] eqn:L3.
    { apply (Hword "false"%string (PyBool false) r0 L3); try reflexivity; try discriminate.
      exact H. }
    destruct (match_number (c :: s')) as [[v0 r0]|] eqn:En.
    { inversion H; subst v0 r0.
      pose proof (match_number_value _ _ _ En) as Hnd.
      split; [now apply match_number_length in En|]. split; [congruence|].
      intros t fuel2 Hle [Hstop|Hd]; [|congruence].
      rewrite Hfuel by exact Hle. unfold scan_step. rewrite E34, E123, E91.
      destruct (match_number_head _ _ _ En) as (c0 & s0 & Hc & Hhead).
      inversion Hc; subst c0 s0.
      rewrite !(literal_not_number _ c (s' ++ t) Hhead) by auto.
      change (c :: s' ++ t) with ((c :: s') ++ t).
      now rewrite (match_number_app _ _ _ t En Hstop). }
    destruct (literal "NaN" (c :: s')) as [r0|] eqn:L4.
    { apply (Hword "NaN"%string (PyFloat S754_nan) r0 L4); try reflexivity; try discriminate.
      destruct (literal "Infinity" (c :: s')), (literal "-Infinity" (c :: s')); exact H. }
    destruct (literal "Infinity" (c :: s')) as [r0|] eqn:L5.
    { apply (Hword "Infinity"%string (PyFloat (S754_infinity false)) r0 L5);
        try reflexivity; try discriminate.
      destruct (literal "-Infinity" (c :: s')); exact H. }
    destruct (literal "-Infinity" (c :: s')) as [r0|] eqn:L6; [|discriminate H].
    apply (Hword "-Infinity"%string (PyFloat (S754_infinity true)) r0 L6);
      try reflexivity; try discriminate.
    exact H.
  - (* object_pairs *)
    intros s pairs v r H. rewrite object_pairs_S in H.
    destruct (scanstring s []) as [key s1| |] eqn:Es; try discriminate H.
    destruct (colon s1) as [s2|] eqn:Ec; [|discriminate H].
    destruct (scan_once fuel s2) as [v0 s3| |] eqn:Ev; try discriminate H.
    destruct (IHs _ _ _ Ev) as (Hlv & _ & Hav).
    pose proof (scanstring_length _ _ _ _ Es) as Hls.
    pose proof (colon_length _ _ Ec) as Hlc.
    pose proof (object_next_length s3) as Hln.
    assert (Hnb : object_next s3 <> Bad)
      by (destruct (object_next s3); [discriminate | discriminate | discriminate H]).
    pose proof (object_next_app s3) as Hna.
    assert (Hrest : forall t fuel2, S fuel <= fuel2 ->
              object_pairs fuel2 (s ++ t) pairs =
              match object_next s3 with
              | Close r0 => Parsed (PyDict (dict_of_pairs (pairs ++ [(key, v0)]))) (r0 ++ t)
              | More s4 => object_pairs (pred fuel2) (s4 ++ t) (pairs ++ [(key, v0)])
              | Bad => Invalid
              end).
    { intros t [|f2] Hle; [lia|]. rewrite object_pairs_S.
      rewrite (scanstring_app _ _ _ _ t Es).
      rewrite (colon_app _ _ t Ec) by (intros ->; simpl in Hlv; lia).
      rewrite (Hav t f2) by (try lia; left; now apply object_next_stops).
      rewrite (Hna t Hnb). destruct (object_next s3); reflexivity. }
    destruct (object_next s3) as [r0|s4|]; [| |congruence].
    + inversion H; subst. split; [lia|]. split; [reflexivity|].
      intros t fuel2 Hle. now rewrite Hrest.
    + destruct (IHo _ _ _ _ H) as (Hl4 & Hd & Ha4).
      split; [lia|]. split; [exact Hd|].
      intros t fuel2 Hle. rewrite Hrest by exact Hle. apply Ha4. lia.
  - (* array_items *)
    intros s values v r H. rewrite array_items_S in H.
    destruct (scan_once fuel s) as [v0 s1| |] eqn:Ev; try discriminate H.
    destruct (IHs _ _ _ Ev) as (Hlv & _ & Hav).
    pose proof (array_next_length s1) as Hln.
    assert (Hnb : array_next s1 <> Bad)
      by (destruct (array_next s1); [discriminate | discriminate | discriminate H]).
    pose proof (array_next_app s1) as Hna.
    assert (Hrest : forall t fuel2, S fuel <= fuel2 ->
              array_items fuel2 (s ++ t) values =
              match array_next (s1 ++ t) with
              | Close r0 => Parsed (PyList (values ++ [v0])) r0
              | More s2 => array_items (pred fuel2) s2 (values ++ [v0])
              | Bad => Invalid
              end).
    { intros t [|f2] Hle; [lia|]. rewrite array_items_S.
      rewrite (Hav t f2) by (try lia; left; now apply array_next_stops).
      reflexivity. }
    destruct (array_next s1) as [r0|s2|]; [| |congruence].
    + inversion H; subst. split; [lia|]. split; [reflexivity|].
      intros t fuel2 Hle. rewrite Hrest by exact Hle. now rewrite (Hna t).
    + destruct (IHa _ _ _ _ H) as (Hl2 & Hd & Ha2).
      split; [lia|]. split; [exact Hd|].
      intros t fuel2 Hle. rewrite Hrest by exact Hle.
      rewrite (Hna t) by (intros ->; simpl in Hl2; lia).
      apply Ha2. lia.
Qed.

(** ** Fuel *)

(** With fuel above twice the length of the text, the scan does not run
    out of it. *)
Lemma scan_fuel fuel :
  (forall s, 2 * List.length s < fuel -> scan_once fuel s <> NoFuel)
  /\ (forall s pairs, 2 * List.length s + 1 < fuel ->
                      object_pairs fuel s pairs <> NoFuel)
  /\ (forall s values, 2 * List.length s + 1 < fuel ->
                       array_items fuel s values <> NoFuel).
Proof.
  induction fuel as [|fuel (IHs & IHo & IHa)].
  { repeat split; intros; lia. }
  split; [|split].
  - intros s Hf. destruct s as [|c s']; [discriminate|].
    rewrite scan_once_S. unfold scan_step. simpl in Hf.
    pose proof (skip_ws_length s') as Hl.
    destruct (c =? 34)%N.
    { pose proof (scanstring_fuel s' []).
      destruct (scanstring s' []); congruence. }
    destruct (c =? 123)%N.
    { destruct (skip_ws s') as [|c1 s1]; [discriminate|]. simpl in Hl.
      destruct (c1 =? 125)%N; [discriminate|].
      destruct (c1 =? 34)%N; [apply IHo; lia | discriminate]. }
    destruct (c =? 91)%N.
    { destruct (skip_ws s') as [|c1 s1]; [discriminate|].
      destruct (c1 =? 93)%N; [discriminate|]. apply IHa. simpl in *. lia. }
    destruct (literal "null" (c :: s')); [discriminate|].
    destruct (literal "true" (c :: s')); [discriminate|].
    destruct (literal "false" (c :: s')); [discriminate|].
    destruct (match_number (c :: s')) as [[v r]|]; [discriminate|].
    destruct (literal "NaN" (c :: s')); [discriminate|].
    destruct (literal "Infinity" (c :: s')); [discriminate|].
    destruct (literal "-Infinity" (c :: s')); discriminate.
  - intros s pairs Hf. rewrite object_pairs_S.
    destruct (scanstring s []) as [key s1| |] eqn:Es;
      [|discriminate | now apply scanstring_fuel in Es].
    apply scanstring_length in Es.
    destruct (colon s1) as [s2|] eqn:Ec; [|discriminate].
    apply colon_length in Ec.
    destruct (scan_once fuel s2) as [v s3| |] eqn:Ev;
      [|discriminate | apply IHs in Ev; [contradiction | lia]].
    destruct (scan_spec fuel) as (Hs & _ & _).
    destruct (Hs _ _ _ Ev) as (Hl3 & _).
    pose proof (object_next_length s3) as Hn.
    destruct (object_next s3) as [r|s4|]; [discriminate | | discriminate].
    apply IHo. lia.
  - intros s values Hf. rewrite array_items_S.
    destruct (scan_once fuel s) as [v s1| |] eqn:Ev;
      [|discriminate | apply IHs in Ev; [contradiction | lia]].
    destruct (scan_spec fuel) as (Hs & _ & _).
    destruct (Hs _ _ _ Ev) as (Hl1 & _).
    pose proof (array_next_length s1) as Hn.
    destruct (array_next s1) as [r|s2|]; [discriminate | | discriminate].
    apply IHa. lia.
Qed.

(** [json.loads] is total: it returns a value or raises
    [JSONDecodeError]; the fuel of the encoding is never exhausted. *)
Lemma raw_decode_fuel s : raw_decode s <> NoFuel.
Proof.
  unfold raw_decode. apply (proj1 (scan_fuel _)).
  pose proof (skip_ws_length s). lia.
Qed.

Lemma loads_total s :
  (exists v, loads s = Ok v) \/ loads s = Raise JSONDecodeError.
Proof.
  unfold loads. pose proof (raw_decode_fuel s) as Hf.
  destruct (raw_decode s) as [v r| |]; [| now right | congruence].
  destruct (skip_ws r); [left; eauto | now right].
Qed.

(** ** The decoded top-level value *)

(** A text that starts with an opening brace decodes to a dict, if it
    decodes at all. *)
Lemma loads_brace_dict s v :
  loads (123%N :: s) = Ok v -> is_dict v = true.
Proof.
  unfold loads, raw_decode. change (skip_ws (123%N :: s)) with (123%N :: s).
  rewrite scan_once_S. unfold scan_step. simpl (_ =? _)%N. cbv iota.
  destruct (skip_ws s) as [|c1 s1]; [discriminate|].
  destruct (c1 =? 125)%N.
  { destruct (skip_ws s1); intros H; inversion H; reflexivity. }
  destruct (c1 =? 34)%N; [|discriminate].
  destruct (object_pairs (2 * List.length (123%N :: s)) s1 []) as [v0 r| |] eqn:E;
    try discriminate.
  destruct (scan_spec (2 * List.length (123%N :: s))) as (_ & Ho & _).
  destruct (Ho _ _ _ _ E) as (_ & Hd & _).
  destruct (skip_ws r); intros H; inversion H; subst; exact Hd.
Qed.

(** ** Text after the value *)

Lemma skip_ws_nonempty_app s t :
  skip_ws s <> [] -> skip_ws (s ++ t) = skip_ws s ++ t.
Proof.
  intros H. destruct (skip_ws s) as [|c r] eqn:E; [congruence|].
  now apply skip_ws_cons_app.
Qed.

(** A document that decodes to an object, followed by anything that is not
    white space, is refused. *)
Lemma loads_extra_data j t d :
  loads j = Ok (PyDict d) ->
  skip_ws t <> [] ->
  loads (j ++ t) = Raise JSONDecodeError.
Proof.
  unfold loads, raw_decode. intros H Ht.
  destruct (scan_once (S (2 * List.length j)) (skip_ws j)) as [v r| |] eqn:E;
    try discriminate H.
  destruct (skip_ws r) eqn:Er; [|discriminate H].
  inversion H; subst v.
  destruct (scan_spec (S (2 * List.length j))) as (Hs & _ & _).
  destruct (Hs _ _ _ E) as (Hl & Hb & Happ).
  destruct (Hb eq_refl) as (s' & Hj).
  rewrite skip_ws_nonempty_app by (rewrite Hj; discriminate).
  rewrite (Happ t (S (2 * List.length (j ++ t))))
    by (try (rewrite length_app; lia); now right).
  rewrite (skip_ws_nil_app _ t Er).
  destruct (skip_ws t); [congruence | reflexivity].
Qed.

End JsonFacts.

(* ================================================================== *)
(** * The decoder and the mapping on examples *)
(* ================================================================== *)

Example loads_numbers :
  Json.loads (py " [1, -2, 0, -0, 2.5, 1e2, -0.0, 1E-2, 0.1] ")
  = Ok (PyList [PyInt 1; PyInt (-2); PyInt 0; PyInt 0;
                PyFloat (S754_finite false 5629499534213120 (-51));
                PyFloat (S754_finite false 7036874417766400 (-46));
                PyFloat (S754_zero true);
                PyFloat (S754_finite false 5764607523034235 (-59));
                PyFloat (S754_finite false 7205759403792794 (-56))]).
Proof. vm_compute. reflexivity. Qed.

Example loads_rounding :
  Json.loads (py "[9007199254740993.0, 5e-324, 2.4e-324, 1.7976931348623159e308]")
  = Ok (PyList [PyFloat (S754_finite false 4503599627370496 1);
                PyFloat (S754_finite false 1 (-1074));
                PyFloat (S754_zero false);
                PyFloat (S754_infinity false)]).
Proof. vm_compute. reflexivity. Qed.

Example loads_constants :
  Json.loads (py "[NaN, Infinity, -Infinity, true, false, null]")
  = Ok (PyList [PyFloat S754_nan; PyFloat (S754_infinity false);
                PyFloat (S754_infinity true); PyBool true; PyBool false; PyNone]).
Proof. vm_compute. reflexivity. Qed.

Example loads_escapes :
  Json.loads (pyq "['\ud83d\ude00', '\u00e9A', '\ud83d\u0041', 'a\n\t\\\/']")
  = Ok (PyList [PyStr [128512%N]; PyStr [233%N; 65%N]; PyStr [55357%N; 65%N];
                PyStr [97%N; 10%N; 9%N; 92%N; 47%N]]).
Proof. vm_compute. reflexivity. Qed.

Example loads_repeated_key :
  Json.loads (pyq "{'a': 1, 'b': [[], {}], 'a': 2}")
  = Ok (PyDict [(py "a", PyInt 2); (py "b", PyList [PyList []; PyDict []])]).
Proof. vm_compute. reflexivity. Qed.

Example loads_refused :
  List.map Json.loads
    [pyq "{'a':1,}"; pyq "{'a':01}"; pyq "{'a':1.}"; pyq "{'a':.5}"; pyq "{'a':-}";
     pyq "{'a' 1}"; pyq "{a: 1}"; pyq "{'a': 1"; pyq "{'a': '\x'}"; pyq "{'a': '\ud83d\u12'}";
     py "[1,]"; py "nul"; py ""; py "1 2"]
  = List.repeat (Raise JSONDecodeError) 14.
Proof. vm_compute. reflexivity. Qed.

Example map_fields_image :
  map_fields (page_world [])
    (PyDict [(py "product", PyDict [(py "productName", PyStr (py "Shoe"))]);
             (py "media",
              PyDict [(py "albums",
                       PyList [PyDict [(py "images",
                                        PyList [PyDict [(py "imageURL", PyStr (py "http://i/1.jpg"));
                                                        (py "src", PyStr (py "http://i/2.jpg"))]])]])]);
             (py "price", PyDict [(py "marked", PyInt 1999);
                                  (py "discountedPrice", PyFloat (S754_finite false 5629499534213120 (-42)))]);
             (py "flags", PyDict [(py "outOfStock", PyBool false)])])
  = Ok {| title := py "Shoe";
          primary_image := py "http://i/1.jpg";
          original_price := 1999;
          discounted_price := 1280;
          in_stock := true |}.
Proof. vm_compute. reflexivity. Qed.

Example map_fields_null_product :
  map_fields (page_world []) (PyDict [(py "product", PyNone)]) = Raise AttributeError.
Proof. reflexivity. Qed.

Example map_fields_images_not_a_list :
  map_fields (page_world [])
    (PyDict [(py "media",
              PyDict [(py "albums",
                       PyList [PyDict [(py "images", PyDict [(py "0", PyNone)])]])])])
  = Raise KeyError.
Proof. reflexivity. Qed.

(* ================================================================== *)
(** * The handler, stage by stage *)
(* ================================================================== *)

(** A URL that passes validation costs exactly one request. *)
Lemma fetch_valid w url netloc :
  urlparse_netloc w url = Some netloc ->
  contains (py "myntra.com") netloc = true ->
  fetch_myntra_product w url =
    ([HttpGet url HEADERS 10],
     match requests_get w url with
     | inl e =>
         Raise (HTTPException 502
                  (mkDetail "Network error while fetching Myntra page: "
                            (ArgErr (RequestException e))))
     | inr resp => handle_response w resp
     end).
Proof.
  intros Hn Hc. unfold fetch_myntra_product. now rewrite Hn, Hc.
Qed.

Lemma handle_response_200 w resp :
  status_code resp = 200 ->
  contains (py "Access Denied") (text resp) = false ->
  contains (py "You don't have permission") (text resp) = false ->
  handle_response w resp = locate_and_map w (text resp).
Proof.
  intros Hs Ha Hp. unfold handle_response. now rewrite Hs, Ha, Hp.
Qed.

Lemma locate_and_map_decoded w html script_text raw_data :
  locate_script (soup_script_texts w html) = Some script_text ->
  extract_json script_text = Ok raw_data ->
  locate_and_map w html =
    match map_fields w raw_data with
    | Ok r => Ok r
    | Raise e => Raise (Uncaught e)
    end.
Proof.
  intros Hl He. unfold locate_and_map. rewrite Hl.
  destruct script_text as [|c t].
  - apply locate_script_first in Hl. destruct Hl as (_ & _ & _ & Hc & _).
    discriminate.
  - now rewrite He.
Qed.

Lemma fetch_reaches_mapping w url raw_data :
  reaches_mapping w url raw_data ->
  snd (fetch_myntra_product w url) =
    match map_fields w raw_data with
    | Ok r => Ok r
    | Raise e => Raise (Uncaught e)
    end.
Proof.
  intros (netloc & resp & script & Hn & Hc & Hg & Hs & Ha & Hp & Hl & He).
  rewrite (fetch_valid _ _ _ Hn Hc), Hg. simpl.
  rewrite (handle_response_200 _ _ Hs Ha Hp).
  now apply locate_and_map_decoded with script.
Qed.

(* ================================================================== *)
(** * Validation *)
(* ================================================================== *)

(** C8. The code departs from the claim at a URL of another host that
    carries "myntra.com" in its user information: line 48 tests the whole
    network location instead of the host, so the URL passes validation and
    is requested, although its host does not contain the domain and line
    46 and the detail of the 400 say that only myntra.com is allowed. *)
Lemma userinfo_url_is_fetched :
  urlparse_netloc (fixed_world (inr (mkResponse 200 [])) []) userinfo_url
  = Some (py "myntra.com@shop.example")
  /\ hostname (py "myntra.com@shop.example") = py "shop.example"
  /\ contains (py "myntra.com") (py "shop.example") = false
  /\ fst (fetch_myntra_product (fixed_world (inr (mkResponse 200 [])) []) userinfo_url)
     = [HttpGet userinfo_url HEADERS 10]
  /\ ~ host_validated_as_stated (fixed_world (inr (mkResponse 200 [])) []) userinfo_url.
Proof.
  split; [reflexivity|]. split; [reflexivity|]. split; [reflexivity|].
  split; [reflexivity|].
  intros H. specialize (H (py "myntra.com@shop.example") eq_refl eq_refl).
  vm_compute in H. discriminate H.
Qed.

(** X20. The check of line 48 comes before the request: a URL whose
    network location (the [netloc] that [urlparse] returns) does not
    contain "myntra.com" makes the handler raise the [HTTPException] with
    status 400, and the trace of requests is empty: [requests.get] has
    not been called. *)
Theorem unsupported_domain_before_fetch w url netloc :
  urlparse_netloc w url = Some netloc ->
  contains (py "myntra.com") netloc = false ->
  fetch_myntra_product w url = ([], Raise unsupported_domain).
Proof.
  intros Hn Hc. unfold fetch_myntra_product. now rewrite Hn, Hc.
Qed.

Lemma unsupported_domain_before_fetch_witness :
  contains (py "myntra.com") (py "www.example.org") = false
  /\
  fetch_myntra_product (fixed_world (inr (mkResponse 200 [])) [])
    (py "https://www.example.org/shoe/1")
  = ([], Raise unsupported_domain).
Proof.
  split; [reflexivity|].
  apply (unsupported_domain_before_fetch _ _ (py "www.example.org"));
    reflexivity.
Defined.

(* ================================================================== *)
(** * Upstream status and block detection *)
(* ================================================================== *)

(** C1, as stated, fails: a response with status 403 and the blocking
    phrase in its body is reported by the status check, which comes
    first; the body is never looked at. *)
Lemma blocked_403_counterexample :
  snd (fetch_myntra_product (answering_world 403 "<h1>Access Denied</h1>") shoe_url)
  = Raise (HTTPException 403 (mkDetail "Myntra returned HTTP " (ArgInt 403)))
  /\ ~ blocked_403_as_stated (answering_world 403 "<h1>Access Denied</h1>") shoe_url.
Proof.
  split; [reflexivity|].
  intros H.
  specialize (H (py "www.myntra.com") (mkResponse 403 (py "<h1>Access Denied</h1>"))
                eq_refl eq_refl eq_refl eq_refl eq_refl).
  vm_compute in H. discriminate H.
Qed.

(** C1, amended. A response with status 403 is reported with status 403 by
    the check of the status, with the detail "Myntra returned HTTP 403",
    whatever its body contains, and so is every response whose status is
    not 200, with its own status. The handler reports a blocking page
    (status 403, the detail naming the block) exactly when the response
    has status 200 and its body contains one of the two phrases. *)
Theorem status_check_precedes_block_detection w url netloc resp :
  urlparse_netloc w url = Some netloc ->
  contains (py "myntra.com") netloc = true ->
  requests_get w url = inr resp ->
  (status_code resp = 403 ->
   fetch_myntra_product w url =
     ([HttpGet url HEADERS 10],
      Raise (HTTPException 403 (mkDetail "Myntra returned HTTP " (ArgInt 403)))))
  /\
  (status_code resp <> 200 ->
   fetch_myntra_product w url =
     ([HttpGet url HEADERS 10],
      Raise (HTTPException (status_code resp)
               (mkDetail "Myntra returned HTTP " (ArgInt (status_code resp))))))
  /\
  (status_code resp = 200 ->
   contains (py "Access Denied") (text resp) = true
   \/ contains (py "You don't have permission") (text resp) = true ->
   fetch_myntra_product w url = ([HttpGet url HEADERS 10], Raise upstream_blocked))
  /\
  (snd (fetch_myntra_product w url) = Raise upstream_blocked ->
   status_code resp = 200
   /\ (contains (py "Access Denied") (text resp) = true
       \/ contains (py "You don't have permission") (text resp) = true)).
Proof.
  intros Hn Hc Hg. rewrite (fetch_valid _ _ _ Hn Hc), Hg.
  split; [|split; [|split]].
  - intros Hs. unfold handle_response. now rewrite Hs.
  - intros Hs. unfold handle_response. apply Z.eqb_neq in Hs. now rewrite Hs.
  - intros Hs Hb. unfold handle_response. rewrite Hs. simpl.
    destruct Hb as [-> | ->]; [reflexivity|].
    now rewrite orb_true_r.
  - cbn [snd]. unfold handle_response.
    destruct (status_code resp =? 200) eqn:Hs; cbn [negb].
    2:{ intros H. unfold upstream_blocked in H. inversion H. }
    apply Z.eqb_eq in Hs. intros H. split; [exact Hs|].
    destruct (contains (py "Access Denied") (text resp)); [now left|].
    destruct (contains (py "You don't have permission") (text resp)); [now right|].
    exfalso. cbn [orb] in H. unfold locate_and_map, upstream_blocked in H.
    destruct (locate_script (soup_script_texts w (text resp))) as [[|c t]|];
      try (inversion H; fail).
    destruct (extract_json (c :: t)) as [raw_data|e]; [|inversion H].
    destruct (map_fields w raw_data); discriminate H.
Qed.

Lemma status_check_precedes_block_detection_witness :
  fetch_myntra_product (answering_world 403 "<h1>Access Denied</h1>") shoe_url
  = ([HttpGet shoe_url HEADERS 10],
     Raise (HTTPException 403 (mkDetail "Myntra returned HTTP " (ArgInt 403))))
  /\
  fetch_myntra_product (answering_world 200 "<h1>Access Denied</h1>") shoe_url
  = ([HttpGet shoe_url HEADERS 10], Raise upstream_blocked)
  /\
  (200 = 200
   /\ (contains (py "Access Denied") (py "<p>You don't have permission</p>") = true
       \/ contains (py "You don't have permission")
                    (py "<p>You don't have permission</p>") = true)).
Proof.
  split; [|split].
  - refine (proj1 (status_check_precedes_block_detection _ _
                     (py "www.myntra.com") (mkResponse 403 _) _ _ _) _);
      reflexivity.
  - refine (proj1 (proj2 (proj2 (status_check_precedes_block_detection _ _
                     (py "www.myntra.com") (mkResponse 200 _) _ _ _))) _ _);
      try reflexivity.
    left; reflexivity.
  - refine (proj2 (proj2 (proj2 (status_check_precedes_block_detection
                     (answering_world 200 "<p>You don't have permission</p>") shoe_url
                     (py "www.myntra.com")
                     (mkResponse 200 (py "<p>You don't have permission</p>"))
                     _ _ _))) _);
      reflexivity.
Defined.

(* ================================================================== *)
(** * Locating and decoding the data *)
(* ================================================================== *)

(** The value decoded in step 4 is a dict. *)
Lemma extract_json_dict script_text raw_data :
  extract_json script_text = Ok raw_data -> exists d, raw_data = PyDict d.
Proof.
  unfold extract_json.
  destruct (find (py "{") script_text) as [i|] eqn:Ei; [|discriminate].
  change (py "{") with [123%N] in Ei.
  destruct (find_char_slice _ _ _ Ei) as (r & ->).
  intros H. apply JsonFacts.loads_brace_dict in H.
  destruct raw_data; try discriminate H. eauto.
Qed.

(** C5. When the first script that contains the marker has the text of
    the scenario, locating, decoding and mapping succeed and return the
    title "Shoe", no image, the prices 2000 and 1500, and out of stock. *)
Theorem shoe_scenario w html :
  first_marker_script (soup_script_texts w html) shoe_script ->
  locate_and_map w html =
    Ok {| title := py "Shoe";
          primary_image := [];
          original_price := 2000;
          discounted_price := 1500;
          in_stock := false |}.
Proof.
  intros H. apply locate_script_first in H.
  rewrite (locate_and_map_decoded w html shoe_script
             (PyDict [(py "name", PyStr (py "Shoe"));
                      (py "mrp", PyInt 2000);
                      (py "price", PyDict [(py "effective", PyInt 1500)]);
                      (py "flags", PyDict [(py "outOfStock", PyBool true)])]) H)
    by (vm_compute; reflexivity).
  unfold map_fields, ProductResponse_new. simpl.
  now rewrite !pydantic_str_str.
Qed.

Lemma shoe_scenario_witness :
  locate_and_map (page_world [py "window.dataLayer = []"; shoe_script]) [] =
    Ok {| title := py "Shoe";
          primary_image := [];
          original_price := 2000;
          discounted_price := 1500;
          in_stock := false |}.
Proof.
  apply shoe_scenario.
  exists [py "window.dataLayer = []"], [].
  split; [reflexivity|]. split; [reflexivity|].
  intros t' [<-|[]]. reflexivity.
Defined.

(** C10. When the first script that contains the marker has no opening
    brace, the failed [index] is caught by the handler of the decoding
    step: status 500 with the detail "Failed to parse product JSON: "
    followed by the error of [index], not the failure to locate the
    data. *)
Theorem no_brace_is_parse_error w html script_text :
  first_marker_script (soup_script_texts w html) script_text ->
  ~ In 123%N script_text ->
  locate_and_map w html = Raise (parse_error ValueError_substring_not_found).
Proof.
  intros H Hb. apply locate_script_first in H.
  pose proof H as H'. apply locate_script_first in H'.
  destruct H' as (_ & _ & _ & Hc & _).
  apply marker_script_nonempty in Hc.
  unfold locate_and_map. rewrite H.
  destruct script_text as [|c t]; [congruence|].
  unfold extract_json.
  change (py "{") with [123%N].
  now rewrite (proj2 (find_char_None 123 (c :: t)) Hb).
Qed.

Lemma no_brace_is_parse_error_witness :
  locate_and_map (page_world [py "var pdpData = window.__state;"]) [] =
    Raise (parse_error ValueError_substring_not_found).
Proof.
  apply (no_brace_is_parse_error _ _ (py "var pdpData = window.__state;")).
  - exists [], []. split; [reflexivity|]. split; [reflexivity|]. intros ? [].
  - vm_compute. intuition discriminate.
Defined.

Lemma not_only_white_space t :
  (exists c, In c t /\ Json.is_ws c = false) -> Json.skip_ws t <> [].
Proof.
  intros (c & Hin & Hc). induction t as [|x t IH]; [destruct Hin|].
  simpl. destruct (Json.is_ws x) eqn:E; [|discriminate].
  destruct Hin as [->|Hin]; [congruence | now apply IH].
Qed.

(** C9. When the text of the located script, from its first opening brace
    on, is a document that decodes to an object followed by text that is
    not only white space (a semicolon, more code), decoding the whole
    suffix fails and the handler raises the [HTTPException] with status
    500 and the detail "Failed to parse product JSON: " followed by the
    decoder's error. *)
Theorem trailing_content_is_parse_error w html script_text i j t d :
  first_marker_script (soup_script_texts w html) script_text ->
  find (py "{") script_text = Some i ->
  slice_from i script_text = j ++ t ->
  Json.loads j = Ok (PyDict d) ->
  (exists c, In c t /\ Json.is_ws c = false) ->
  locate_and_map w html = Raise (parse_error JSONDecodeError).
Proof.
  intros Hf Hi Hs Hj Ht. apply locate_script_first in Hf.
  pose proof Hf as Hf'. apply locate_script_first in Hf'.
  destruct Hf' as (_ & _ & _ & Hc & _). apply marker_script_nonempty in Hc.
  unfold locate_and_map. rewrite Hf.
  destruct script_text as [|c0 s0]; [congruence|].
  unfold extract_json. rewrite Hi, Hs.
  rewrite (JsonFacts.loads_extra_data j t d Hj (not_only_white_space t Ht)).
  reflexivity.
Qed.

Lemma trailing_content_is_parse_error_witness :
  locate_and_map (page_world [pyq "var pdpData={'name':'Shoe'};"]) []
  = Raise (parse_error JSONDecodeError).
Proof.
  apply (trailing_content_is_parse_error _ _
           (pyq "var pdpData={'name':'Shoe'};") 12
           (pyq "{'name':'Shoe'}") (py ";")
           [(py "name", PyStr (py "Shoe"))]).
  - exists [], []. split; [reflexivity|]. split; [reflexivity|]. intros ? [].
  - reflexivity.
  - reflexivity.
  - vm_compute. reflexivity.
  - exists 59%N. split; [now left | reflexivity].
Defined.

(* ================================================================== *)
(** * The field mapping *)
(* ================================================================== *)

Lemma bind_Ok {E A B} (m : result E A) (k : A -> result E B) b :
  bind m k = Ok b -> exists a, m = Ok a /\ k a = Ok b.
Proof. destruct m as [a|e]; simpl; [eauto | discriminate]. Qed.

Lemma or_Ok a b v :
  (a OR b) = Ok v ->
  (a = Ok v /\ truthy v = true)
  \/ (exists x, a = Ok x /\ truthy x = false /\ b = Ok v).
Proof.
  unfold or_. intros H. apply bind_Ok in H. destruct H as (x & Ha & H).
  destruct (truthy x) eqn:T.
  - inversion H; subst. now left.
  - right. eauto.
Qed.

(** Splits a hypothesis [x <- m ;; k = Ok r] into its two steps. *)
Ltac bind_inv H :=
  let a := fresh "x" in
  let Ha := fresh "H" a in
  apply bind_Ok in H; destruct H as (a & Ha & H).

Lemma get_dict d k :
  get (PyDict d) k = Ok (match lookup (py k) d with Some v => v | None => PyNone end).
Proof. reflexivity. Qed.

Lemma get_not_dict x k default :
  is_dict x = false -> get_default x k default = Raise AttributeError.
Proof. destruct x; simpl; intros H; try reflexivity; discriminate. Qed.

Lemma lookup_Some_truthy k d v :
  lookup k d = Some v -> truthy (PyDict d) = true.
Proof. destruct d; simpl; [discriminate | reflexivity]. Qed.

(** A chain of [get]s can only fail with [AttributeError]. *)
Lemma map_title_error data e :
  map_title data = Raise e -> e = AttributeError.
Proof.
  unfold map_title, or_, get. destruct data; simpl; try (intros H; now inversion H).
  destruct (truthy _); [discriminate|].
  destruct (lookup (py "product") d) as [p|]; simpl.
  - destruct p; simpl; try (intros H; now inversion H).
    destruct (truthy _); discriminate.
  - discriminate.
Qed.

(** C7. The empty object is mapped to the record of defaults: the title
    "Unknown Product", no image, both prices 0, in stock. *)
Theorem map_fields_empty_object w :
  map_fields w (PyDict []) =
    Ok {| title := py "Unknown Product";
          primary_image := [];
          original_price := 0;
          discounted_price := 0;
          in_stock := true |}.
Proof.
  unfold map_fields, ProductResponse_new. simpl.
  now rewrite !pydantic_str_str.
Qed.

(** C4, as stated, fails: with an empty object under [pdpData] the
    mapping does not descend; it goes on with the whole decoded value (and
    finds the title there). *)
Lemma descends_counterexample :
  effective_record
    (PyDict [(py "pdpData", PyDict []); (py "name", PyStr (py "Top"))])
  = Ok (PyDict [(py "pdpData", PyDict []); (py "name", PyStr (py "Top"))])
  /\ option_map title
       (match map_fields (page_world [])
                (PyDict [(py "pdpData", PyDict []); (py "name", PyStr (py "Top"))])
        with Ok r => Some r | Raise _ => None end)
     = Some (py "Top")
  /\ ~ descends_as_stated [(py "pdpData", PyDict []); (py "name", PyStr (py "Top"))].
Proof.
  split; [reflexivity|]. split; [reflexivity|].
  intros H. specialize (H (PyDict []) eq_refl). vm_compute in H. discriminate H.
Qed.

Lemma effective_record_dict d :
  effective_record (PyDict d) =
    Ok (match lookup (py "pdpData") d with
        | Some v => if truthy v then v else PyDict d
        | None => PyDict d
        end).
Proof.
  unfold effective_record, or_. rewrite get_dict.
  destruct (lookup (py "pdpData") d) as [v|]; simpl; [|reflexivity].
  destruct (truthy v); reflexivity.
Qed.

(** C4, amended. Every successfully decoded top-level value is a dict. The
    mapping descends into the value of its key [pdpData] when that value
    is truthy; when the key is absent, or its value is falsy (an empty
    object, null), the effective record is the whole decoded value. *)
Theorem effective_record_truthy_marker script_text raw_data :
  extract_json script_text = Ok raw_data ->
  exists d,
    raw_data = PyDict d
    /\ (forall v, lookup (py "pdpData") d = Some v -> truthy v = true ->
                  effective_record raw_data = Ok v)
    /\ (forall v, lookup (py "pdpData") d = Some v -> truthy v = false ->
                  effective_record raw_data = Ok raw_data)
    /\ (lookup (py "pdpData") d = None ->
        effective_record raw_data = Ok raw_data).
Proof.
  intros H. destruct (extract_json_dict _ _ H) as (d & ->).
  exists d. split; [reflexivity|]. rewrite effective_record_dict.
  split; [|split].
  - intros v -> ->. reflexivity.
  - intros v -> ->. reflexivity.
  - intros ->. reflexivity.
Qed.

Lemma effective_record_truthy_marker_witness :
  exists d,
    PyDict [(py "pdpData", PyDict []); (py "name", PyStr (py "Top"))] = PyDict d
    /\ (forall v, lookup (py "pdpData") d = Some v -> truthy v = true ->
                  effective_record
                    (PyDict [(py "pdpData", PyDict []); (py "name", PyStr (py "Top"))])
                  = Ok v)
    /\ (forall v, lookup (py "pdpData") d = Some v -> truthy v = false ->
                  effective_record
                    (PyDict [(py "pdpData", PyDict []); (py "name", PyStr (py "Top"))])
                  = Ok (PyDict [(py "pdpData", PyDict []); (py "name", PyStr (py "Top"))]))
    /\ (lookup (py "pdpData") d = None ->
        effective_record
          (PyDict [(py "pdpData", PyDict []); (py "name", PyStr (py "Top"))])
        = Ok (PyDict [(py "pdpData", PyDict []); (py "name", PyStr (py "Top"))])).
Proof.
  apply (effective_record_truthy_marker
           (pyq "window.__myx = {'pdpData':{},'name':'Top'}")).
  vm_compute. reflexivity.
Defined.

(* ================================================================== *)
(** * Values of the wrong shape *)
(* ================================================================== *)

(** Where the traversal needs a mapping and finds something else, the
    mapping raises [AttributeError]. *)
Lemma map_fields_not_a_mapping w raw_data data :
  effective_record raw_data = Ok data ->
  not_a_mapping data ->
  map_fields w raw_data = Raise AttributeError.
Proof.
  intros He Hbad. unfold map_fields. rewrite He. simpl.
  destruct Hbad as [data Hd | d media album albums Hm Ha Hd
                   | d media album albums img images Hm Ha Hi Hd].
  - unfold map_title, or_, get. now rewrite get_not_dict.
  - destruct (map_title (PyDict d)) as [t|e] eqn:Et; simpl.
    + unfold map_primary_image, or_. rewrite get_dict, Hm.
      destruct media as [|kv media]; [discriminate Ha|].
      cbn [bind truthy]. rewrite get_dict, Ha.
      cbn [bind truthy is_list andb item0].
      unfold get. now rewrite get_not_dict.
    + now rewrite (map_title_error _ _ Et).
  - destruct (map_title (PyDict d)) as [t|e] eqn:Et; simpl.
    + unfold map_primary_image, or_. rewrite get_dict, Hm.
      destruct media as [|kv media]; [discriminate Ha|].
      cbn [bind truthy]. rewrite get_dict, Ha.
      cbn [bind truthy is_list andb item0]. rewrite get_dict, Hi.
      cbn [bind truthy item0].
      unfold get. now rewrite get_not_dict.
    + now rewrite (map_title_error _ _ Et).
Qed.

Lemma album_script_reaches_mapping :
  reaches_mapping (page_world [album_script]) shoe_url
    (PyDict [(py "pdpData",
              PyDict [(py "name", PyStr (py "Shoe"));
                      (py "media", PyDict [(py "albums", PyList [PyInt 7])])])]).
Proof.
  exists (py "www.myntra.com"), (mkResponse 200 (py "<html></html>")), album_script.
  repeat (split; [vm_compute; reflexivity|]). vm_compute; reflexivity.
Qed.

Lemma album_not_a_mapping :
  not_a_mapping
    (PyDict [(py "name", PyStr (py "Shoe"));
             (py "media", PyDict [(py "albums", PyList [PyInt 7])])]).
Proof.
  apply bad_album with (media := [(py "albums", PyList [PyInt 7])])
                       (album := PyInt 7) (albums := []); reflexivity.
Qed.

(** C2, as stated, fails: with a number in the place of the first album
    the [AttributeError] of the mapping leaves the handler as it is;
    nothing catches it, and no [HTTPException] is raised. *)
Lemma schema_mismatch_counterexample :
  snd (fetch_myntra_product (page_world [album_script]) shoe_url)
  = Raise (Uncaught AttributeError)
  /\ ~ schema_mismatch_as_stated (page_world [album_script]) shoe_url.
Proof.
  split; [vm_compute; reflexivity|].
  intros H.
  destruct (H _ _ album_script_reaches_mapping eq_refl album_not_a_mapping)
    as (detail & Hd).
  vm_compute in Hd. discriminate Hd.
Qed.

(** C2, amended. When the request gets as far as the mapping and the
    decoded value has something that is not a mapping in the place of the
    effective record, of the first album or of its first image, the
    mapping raises [AttributeError] and this exception leaves the handler
    unchanged: it is not caught and not turned into an [HTTPException]. *)
Theorem mapping_error_escapes w url raw_data data :
  reaches_mapping w url raw_data ->
  effective_record raw_data = Ok data ->
  not_a_mapping data ->
  snd (fetch_myntra_product w url) = Raise (Uncaught AttributeError).
Proof.
  intros Hr He Hbad.
  rewrite (fetch_reaches_mapping _ _ _ Hr).
  now rewrite (map_fields_not_a_mapping w _ _ He Hbad).
Qed.

Lemma mapping_error_escapes_witness :
  snd (fetch_myntra_product (page_world [album_script]) shoe_url)
  = Raise (Uncaught AttributeError).
Proof.
  exact (mapping_error_escapes _ _ _ _ album_script_reaches_mapping eq_refl
           album_not_a_mapping).
Defined.

(* ================================================================== *)
(** * Prices *)
(* ================================================================== *)

(** What the steps of a successful mapping computed. *)
Lemma map_fields_Ok w raw_data r :
  map_fields w raw_data = Ok r ->
  exists data price_info op dp,
    effective_record raw_data = Ok data
    /\ map_price_info data = Ok price_info
    /\ map_original_price data price_info = Ok op
    /\ map_discounted_price data price_info op = Ok dp
    /\ int_or_0 w op = Ok (original_price r)
    /\ int_or_0 w dp = Ok (discounted_price r).
Proof.
  unfold map_fields. intros H.
  bind_inv H. bind_inv H. bind_inv H. bind_inv H. bind_inv H. bind_inv H.
  bind_inv H. bind_inv H. bind_inv H.
  exists x, x2, x3, x4. repeat (split; [assumption|]).
  unfold ProductResponse_new in H.
  destruct (pydantic_str w x0); [|discriminate].
  destruct (pydantic_str w x1); [|discriminate].
  inversion H; subst; simpl. now split.
Qed.

Lemma trunc_float_nonneg f n :
  trunc_float f = Ok n ->
  match f with S754_finite true _ _ => False | _ => True end ->
  0 <= n.
Proof.
  destruct f as [s|s| |s m e]; simpl; intros H Hs; inversion H; subst.
  - lia.
  - destruct s; [contradiction|].
    destruct e; [apply Z.shiftl_nonneg | apply Z.shiftl_nonneg
                | apply Z.shiftr_nonneg]; lia.
Qed.

Lemma int_or_0_nonneg w v n :
  price_safe v = true -> int_or_0 w v = Ok n -> 0 <= n.
Proof.
  unfold int_or_0. destruct v as [|b|z|f|s|l|d]; simpl; intros Hs H.
  - inversion H; lia.
  - destruct b; simpl in H; inversion H; lia.
  - destruct (z =? 0) eqn:E; simpl in H; inversion H; subst; lia.
  - destruct f as [sg|sg| |sg m e]; simpl in H; try (inversion H; lia).
    destruct sg; [discriminate|].
    apply (trunc_float_nonneg (S754_finite false m e)); [exact H | exact I].
  - destruct s; [|discriminate]. simpl in H. inversion H; lia.
  - destruct l; simpl in H; inversion H; lia.
  - destruct d; simpl in H; inversion H; lia.
Qed.

(** The head of a chain is safe, or it is skipped. *)
Lemma or_price_safe a b v :
  (a OR b) = Ok v ->
  (forall x, a = Ok x -> price_safe x = true) ->
  (b = Ok v -> price_safe v = true) ->
  price_safe v = true.
Proof.
  intros H Ha Hb. apply or_Ok in H.
  destruct H as [[H _] | (x & _ & _ & H)]; auto.
Qed.

(** C3, as stated, fails: a negative [mrp] is decoded, chosen as it is
    truthy, and converted by [int()] to itself; both prices of the
    returned record are -5. *)
Lemma negative_price_counterexample :
  locate_and_map (page_world [negative_mrp_script]) []
  = Ok {| title := py "Shoe";
          primary_image := [];
          original_price := -5;
          discounted_price := -5;
          in_stock := true |}
  /\ ~ prices_non_negative_as_stated (page_world [])
         (PyDict [(py "name", PyStr (py "Shoe")); (py "mrp", PyInt (-5))]).
Proof.
  split; [vm_compute; reflexivity|].
  intros H. destruct (H _ eq_refl) as [H0 _]. vm_compute in H0. now apply H0.
Qed.

(** C3, amended. For every decoded value on which the mapping succeeds,
    the two prices of the record are integers, and they are not below zero
    when none of the six price fields holds a number below zero or a
    non-empty string. A number is not made non-negative: under the
    top-level [mrp], an integer other than 0 is the [original_price] of the
    record as it stands. *)
Theorem prices_follow_the_sources w raw_data r data price_info :
  map_fields w raw_data = Ok r ->
  effective_record raw_data = Ok data ->
  map_price_info data = Ok price_info ->
  (price_safe_at data "mrp" ->
   price_safe_at price_info "mrp" ->
   price_safe_at price_info "marked" ->
   price_safe_at data "discountedPrice" ->
   price_safe_at price_info "discountedPrice" ->
   price_safe_at price_info "effective" ->
   0 <= original_price r /\ 0 <= discounted_price r)
  /\ (forall n, get data "mrp" = Ok (PyInt n) -> n <> 0 -> original_price r = n).
Proof.
  intros H He Hp.
  destruct (map_fields_Ok _ _ _ H) as (data' & pi' & op & dp & He' & Hp' & Hop & Hdp & Io & Id).
  rewrite He in He'. inversion He'; subst data'.
  rewrite Hp in Hp'. inversion Hp'; subst pi'.
  split.
  - intros S1 S2 S3 S4 S5 S6.
    assert (So : price_safe op = true).
    { unfold map_original_price in Hop.
      apply (or_price_safe _ _ _ Hop); [exact S1|]. intros Hop1.
      apply (or_price_safe _ _ _ Hop1); [exact S2|]. intros Hop2.
      apply (or_price_safe _ _ _ Hop2); [exact S3|]. intros Hop3.
      inversion Hop3; reflexivity. }
    assert (Sd : price_safe dp = true).
    { unfold map_discounted_price in Hdp.
      apply (or_price_safe _ _ _ Hdp); [exact S4|]. intros Hdp1.
      apply (or_price_safe _ _ _ Hdp1); [exact S5|]. intros Hdp2.
      apply (or_price_safe _ _ _ Hdp2); [exact S6|]. intros Hdp3.
      inversion Hdp3; subst; exact So. }
    split; [apply (int_or_0_nonneg _ _ _ So Io) | apply (int_or_0_nonneg _ _ _ Sd Id)].
  - intros n Hn Hz. unfold map_original_price, or_ in Hop. rewrite Hn in Hop.
    simpl in Hop. apply Z.eqb_neq in Hz. rewrite Hz in Hop. simpl in Hop.
    inversion Hop; subst op. unfold int_or_0 in Io. simpl in Io.
    rewrite Hz in Io. simpl in Io. now inversion Io.
Qed.

Lemma prices_follow_the_sources_witness :
  (map_fields (page_world [])
     (PyDict [(py "mrp", PyInt 2000);
              (py "price", PyDict [(py "effective", PyInt 1500)])])
   = Ok {| title := py "Unknown Product"; primary_image := [];
           original_price := 2000; discounted_price := 1500; in_stock := true |}
   /\ 0 <= 2000 /\ 0 <= 1500)
  /\ (map_fields (page_world [])
        (PyDict [(py "name", PyStr (py "Shoe")); (py "mrp", PyInt (-5))])
      = Ok {| title := py "Shoe"; primary_image := [];
              original_price := -5; discounted_price := -5; in_stock := true |}
      /\ original_price
           {| title := py "Shoe"; primary_image := [];
              original_price := -5; discounted_price := -5; in_stock := true |} = -5).
Proof.
  split; (split; [reflexivity|]).
  - refine (proj1 (prices_follow_the_sources (page_world [])
             (PyDict [(py "mrp", PyInt 2000);
                      (py "price", PyDict [(py "effective", PyInt 1500)])])
             {| title := py "Unknown Product"; primary_image := [];
                original_price := 2000; discounted_price := 1500; in_stock := true |}
             _ _ eq_refl eq_refl eq_refl) _ _ _ _ _ _);
      intros v Hv; vm_compute in Hv; inversion Hv; reflexivity.
  - refine (proj2 (prices_follow_the_sources (page_world [])
             (PyDict [(py "name", PyStr (py "Shoe")); (py "mrp", PyInt (-5))])
             {| title := py "Shoe"; primary_image := [];
                original_price := -5; discounted_price := -5; in_stock := true |}
             _ _ eq_refl eq_refl eq_refl) (-5) eq_refl _).
    discriminate.
Defined.

(** C6. For every decoded value on which the mapping succeeds and whose
    effective record has no truthy value under the top-level
    [discountedPrice] nor under [discountedPrice] and [effective] of the
    price object, the [discounted_price] of the record equals its
    [original_price]. *)
Theorem discounted_defaults_to_original w raw_data r data price_info :
  map_fields w raw_data = Ok r ->
  effective_record raw_data = Ok data ->
  map_price_info data = Ok price_info ->
  falsy_at data "discountedPrice" ->
  falsy_at price_info "discountedPrice" ->
  falsy_at price_info "effective" ->
  discounted_price r = original_price r.
Proof.
  intros H He Hp F1 F2 F3.
  destruct (map_fields_Ok _ _ _ H) as (data' & pi' & op & dp & He' & Hp' & Hop & Hdp & Io & Id).
  rewrite He in He'. inversion He'; subst data'.
  rewrite Hp in Hp'. inversion Hp'; subst pi'.
  assert (dp = op) as ->.
  { unfold map_discounted_price in Hdp.
    apply or_Ok in Hdp. destruct Hdp as [[Hg T] | (x1 & _ & _ & Hdp)].
    { rewrite (F1 _ Hg) in T. discriminate. }
    apply or_Ok in Hdp. destruct Hdp as [[Hg T] | (x2 & _ & _ & Hdp)].
    { rewrite (F2 _ Hg) in T. discriminate. }
    apply or_Ok in Hdp. destruct Hdp as [[Hg T] | (x3 & _ & _ & Hdp)].
    { rewrite (F3 _ Hg) in T. discriminate. }
    now inversion Hdp. }
  rewrite Io in Id. now inversion Id.
Qed.

Lemma discounted_defaults_to_original_witness :
  map_fields (page_world [])
    (PyDict [(py "price", PyDict [(py "marked", PyInt 999);
                                  (py "discountedPrice", PyInt 0)])])
  = Ok {| title := py "Unknown Product"; primary_image := [];
          original_price := 999; discounted_price := 999; in_stock := true |}
  /\ discounted_price
       {| title := py "Unknown Product"; primary_image := [];
          original_price := 999; discounted_price := 999; in_stock := true |}
     = original_price
         {| title := py "Unknown Product"; primary_image := [];
            original_price := 999; discounted_price := 999; in_stock := true |}.
Proof.
  split; [reflexivity|].
  refine (discounted_defaults_to_original (page_world [])
            (PyDict [(py "price", PyDict [(py "marked", PyInt 999);
                                          (py "discountedPrice", PyInt 0)])])
            _ _ _ eq_refl eq_refl eq_refl _ _ _);
    intros v Hv; vm_compute in Hv; inversion Hv; reflexivity.
Defined.

(* ================================================================== *)
(** * The outcomes of the handler *)
(* ================================================================== *)

(** Splits a conjunction whose parts are at hand. *)
Ltac conjs :=
  repeat match goal with |- _ /\ _ => split end;
  try assumption; try reflexivity.

(** Every way through [fetch_myntra_product]: what was observed on the
    way, the trace and the outcome. *)
Lemma fetch_outcome w url :
  (urlparse_netloc w url = None
   /\ fetch_myntra_product w url = ([], Raise (Uncaught ValueError)))
  \/ (exists netloc,
        urlparse_netloc w url = Some netloc
        /\ contains (py "myntra.com") netloc = false
        /\ fetch_myntra_product w url = ([], Raise unsupported_domain))
  \/ (fst (fetch_myntra_product w url) = [HttpGet url HEADERS 10]
      /\ ((exists e,
             requests_get w url = inl e
             /\ snd (fetch_myntra_product w url)
                = Raise (HTTPException 502
                           (mkDetail "Network error while fetching Myntra page: "
                                     (ArgErr (RequestException e)))))
          \/ (exists resp,
                requests_get w url = inr resp
                /\ status_code resp <> 200
                /\ snd (fetch_myntra_product w url)
                   = Raise (HTTPException (status_code resp)
                              (mkDetail "Myntra returned HTTP "
                                        (ArgInt (status_code resp)))))
          \/ (exists resp,
                requests_get w url = inr resp
                /\ status_code resp = 200
                /\ snd (fetch_myntra_product w url) = Raise upstream_blocked)
          \/ (exists resp,
                requests_get w url = inr resp
                /\ status_code resp = 200
                /\ snd (fetch_myntra_product w url) = Raise unable_to_locate)
          \/ (exists resp e,
                requests_get w url = inr resp
                /\ status_code resp = 200
                /\ snd (fetch_myntra_product w url) = Raise (parse_error e))
          \/ (exists raw_data,
                reaches_mapping w url raw_data
                /\ snd (fetch_myntra_product w url) = mapped w raw_data))).
Proof.
  unfold fetch_myntra_product.
  destruct (urlparse_netloc w url) as [netloc|] eqn:Hn; [|left; conjs].
  destruct (contains (py "myntra.com") netloc) eqn:Hc; simpl.
  2:{ right; left. exists netloc. conjs. }
  right; right. split; [reflexivity|].
  destruct (requests_get w url) as [e|resp] eqn:Hg.
  { left. exists e. conjs. }
  right. unfold handle_response.
  destruct (status_code resp =? 200) eqn:Hs; simpl.
  2:{ left. exists resp. apply Z.eqb_neq in Hs. conjs. }
  apply Z.eqb_eq in Hs. right.
  destruct (contains (py "Access Denied") (text resp)) eqn:Ha; simpl.
  { left. exists resp. conjs. }
  destruct (contains (py "You don't have permission") (text resp)) eqn:Hp; simpl.
  { left. exists resp. conjs. }
  right. unfold locate_and_map.
  destruct (locate_script (soup_script_texts w (text resp))) as [script|] eqn:Hl.
  2:{ left. exists resp. conjs. }
  destruct script as [|c t].
  { left. exists resp. conjs. }
  right.
  destruct (extract_json (c :: t)) as [raw_data|e] eqn:He.
  2:{ left. exists resp, e. conjs. }
  right. exists raw_data. split; [|reflexivity].
  exists netloc, resp, (c :: t). conjs.
Qed.

(** X1. When [requests.get] raises a [RequestException], the handler
    raises the [HTTPException] with status 502 whose detail carries the
    text of that exception; the one request is all it did. *)
Theorem transport_failure_is_502 w url netloc e :
  urlparse_netloc w url = Some netloc ->
  contains (py "myntra.com") netloc = true ->
  requests_get w url = inl e ->
  fetch_myntra_product w url =
    ([HttpGet url HEADERS 10],
     Raise (HTTPException 502
              (mkDetail "Network error while fetching Myntra page: "
                        (ArgErr (RequestException e))))).
Proof.
  intros Hn Hc Hg. now rewrite (fetch_valid _ _ _ Hn Hc), Hg.
Qed.

Lemma transport_failure_is_502_witness :
  fetch_myntra_product (fixed_world (inl (py "Connection refused")) []) shoe_url =
    ([HttpGet shoe_url HEADERS 10],
     Raise (HTTPException 502
              (mkDetail "Network error while fetching Myntra page: "
                        (ArgErr (RequestException (py "Connection refused")))))).
Proof.
  apply (transport_failure_is_502 _ _ (py "www.myntra.com")); reflexivity.
Defined.

(** X2. A response whose status is not 200 makes the handler raise an
    [HTTPException] with that very status and the detail "Myntra returned
    HTTP " followed by it, whatever the body and its scripts are. *)
Theorem upstream_status_is_passed_on w url netloc resp :
  urlparse_netloc w url = Some netloc ->
  contains (py "myntra.com") netloc = true ->
  requests_get w url = inr resp ->
  status_code resp <> 200 ->
  fetch_myntra_product w url =
    ([HttpGet url HEADERS 10],
     Raise (HTTPException (status_code resp)
              (mkDetail "Myntra returned HTTP " (ArgInt (status_code resp))))).
Proof.
  intros Hn Hc Hg Hs. rewrite (fetch_valid _ _ _ Hn Hc), Hg.
  unfold handle_response. apply Z.eqb_neq in Hs. now rewrite Hs.
Qed.

Lemma upstream_status_is_passed_on_witness :
  fetch_myntra_product
    (fixed_world (inr (mkResponse 404 (py "<html>gone</html>"))) [shoe_script])
    shoe_url =
    ([HttpGet shoe_url HEADERS 10],
     Raise (HTTPException 404 (mkDetail "Myntra returned HTTP " (ArgInt 404)))).
Proof.
  apply (upstream_status_is_passed_on _ _ (py "www.myntra.com")
           (mkResponse 404 (py "<html>gone</html>")));
    try reflexivity.
  discriminate.
Defined.

(** X3. When no script of the page contains the marker (in particular
    when the page has no script), the handler raises the [HTTPException]
    with status 500 and the detail "Unable to locate product data (pdpData)
    in page"; nothing is decoded. *)
Theorem no_marker_script_is_500 w html :
  (forall t, In t (soup_script_texts w html) -> contains (py "pdpData") t = false) ->
  locate_and_map w html = Raise unable_to_locate.
Proof.
  intros H. unfold locate_and_map.
  destruct (locate_script (soup_script_texts w html)) as [t|] eqn:E; [|reflexivity].
  apply locate_script_first in E. destruct E as (b & a & Ht & Hc & _).
  rewrite (H t) in Hc; [discriminate|].
  rewrite Ht. apply in_or_app. right. now left.
Qed.

Lemma no_marker_script_is_500_witness :
  locate_and_map (page_world [py "window.dataLayer = []"; py "var a = {}"]) []
  = Raise unable_to_locate.
Proof.
  apply no_marker_script_is_500.
  intros t [<-|[<-|[]]]; reflexivity.
Defined.

(** X4. The handler makes at most one request, and only the one for the
    URL it was given, with the fixed headers and the timeout 10: there is
    no retry and no request for another URL. *)
Theorem at_most_one_request w url :
  (List.length (fst (fetch_myntra_product w url)) <= 1)%nat
  /\ forall ev, In ev (fst (fetch_myntra_product w url)) ->
                ev = HttpGet url HEADERS 10.
Proof.
  destruct (fetch_outcome w url) as [[_ ->] | [(n & _ & _ & ->) | [-> _]]]; simpl.
  - split; [lia | intros ev []].
  - split; [lia | intros ev []].
  - split; [lia | intros ev [<-|[]]; reflexivity].
Qed.

(** X5. The handler returns a record exactly when the request got as far
    as the mapping (validation passed, status 200, no blocking phrase, a
    marker script found and decoded) and the mapping of the decoded value
    returned that record: there is no other way to a record. *)
Theorem returns_iff_mapped w url r :
  snd (fetch_myntra_product w url) = Ok r
  <-> exists raw_data,
        reaches_mapping w url raw_data /\ map_fields w raw_data = Ok r.
Proof.
  split.
  - intros H.
    destruct (fetch_outcome w url)
      as [[_ E] | [(n & _ & _ & E) | [_ [(e & _ & E) | [(resp & _ & _ & E)
          | [(resp & _ & _ & E) | [(resp & _ & _ & E) | [(resp & e & _ & _ & E)
          | (raw & Hr & E)]]]]]]]];
      try (rewrite E in H; discriminate H).
    exists raw. split; [exact Hr|].
    rewrite E in H. unfold mapped in H.
    destruct (map_fields w raw); [now inversion H | discriminate H].
  - intros (raw & Hr & Hm).
    rewrite (fetch_reaches_mapping _ _ _ Hr). now rewrite Hm.
Qed.

(** X6. An [HTTPException] raised by the handler never has status 200. *)
Theorem http_exception_is_not_200 w url status detail :
  snd (fetch_myntra_product w url) = Raise (HTTPException status detail) ->
  status <> 200.
Proof.
  intros H.
  destruct (fetch_outcome w url)
    as [[_ E] | [(n & _ & _ & E) | [_ [(e & _ & E) | [(resp & _ & Hs & E)
        | [(resp & _ & _ & E) | [(resp & _ & _ & E) | [(resp & e & _ & _ & E)
        | (raw & Hr & E)]]]]]]]];
    rewrite E in H; try (inversion H; subst; discriminate).
  - inversion H; subst. exact Hs.
  - unfold mapped in H. destruct (map_fields w raw); discriminate H.
Qed.

Lemma http_exception_is_not_200_witness :
  snd (fetch_myntra_product
         (fixed_world (inr (mkResponse 404 (py "<html>gone</html>"))) []) shoe_url)
  = Raise (HTTPException 404 (mkDetail "Myntra returned HTTP " (ArgInt 404)))
  /\ 404 <> 200.
Proof.
  split; [reflexivity|].
  apply (http_exception_is_not_200
           (fixed_world (inr (mkResponse 404 (py "<html>gone</html>"))) [])
           shoe_url 404 (mkDetail "Myntra returned HTTP " (ArgInt 404))).
  reflexivity.
Defined.


(* ================================================================== *)
(** * Which text is decoded *)
(* ================================================================== *)

(** X8. Only the first script that contains the marker counts: two pages
    with the same first marker script give the same outcome, whatever
    their other scripts are (a later script is never tried, even when the
    first one cannot be decoded). *)
Theorem first_marker_script_decides w html1 html2 script_text :
  first_marker_script (soup_script_texts w html1) script_text ->
  first_marker_script (soup_script_texts w html2) script_text ->
  locate_and_map w html1 = locate_and_map w html2.
Proof.
  intros H1 H2. apply locate_script_first in H1, H2.
  unfold locate_and_map. now rewrite H1, H2.
Qed.

(** The index of the first opening brace, after a text without one. *)
Lemma find_brace_after before rest :
  ~ In 123%N before ->
  find [123%N] (before ++ 123%N :: rest) = Some (List.length before).
Proof.
  induction before as [|x b IH]; intros Hb.
  - reflexivity.
  - cbn [app find startswith].
    destruct (N.eqb_spec 123 x) as [<-|Hx].
    + exfalso. apply Hb. now left.
    + simpl. rewrite IH; [reflexivity|]. intros Hin. apply Hb. now right.
Qed.

(** X9. What precedes the first opening brace of the script is dropped
    before decoding: a script made of any text without a brace followed
    by a text that starts with one is decoded as that second text. *)
Theorem text_before_brace_is_dropped before rest :
  ~ In 123%N before ->
  extract_json (before ++ 123%N :: rest) = Json.loads (123%N :: rest).
Proof.
  intros Hb. unfold extract_json. change (py "{") with [123%N].
  rewrite (find_brace_after _ _ Hb). unfold slice_from.
  f_equal. induction before as [|x b IH]; [reflexivity|].
  simpl. apply IH. intros Hin. apply Hb. now right.
Qed.

Lemma first_marker_script_decides_witness :
  locate_and_map two_page_world (py "A") = locate_and_map two_page_world (py "B").
Proof.
  apply (first_marker_script_decides two_page_world (py "A") (py "B") shoe_script).
  - exists [], [album_script]. conjs. intros ? [].
  - exists [py "window.dataLayer = []"], [negative_mrp_script]. conjs.
    intros t' [<-|[]]. reflexivity.
Defined.

Lemma text_before_brace_is_dropped_witness :
  extract_json (py "var pdpData=" ++ 123%N :: pyq "'name':'Shoe'}")
  = Json.loads (123%N :: pyq "'name':'Shoe'}").
Proof.
  apply text_before_brace_is_dropped. vm_compute. intuition discriminate.
Defined.

(* ================================================================== *)
(** * The fallback chains of the mapping *)
(* ================================================================== *)

Lemma or_get_falsy d k b :
  falsy_at (PyDict d) k -> (get (PyDict d) k OR b) = b.
Proof.
  intros H. unfold or_. rewrite get_dict. simpl.
  now rewrite (H _ (get_dict d k)).
Qed.

Lemma or_get_truthy d k v b :
  lookup (py k) d = Some v -> truthy v = true -> (get (PyDict d) k OR b) = Ok v.
Proof.
  intros Hl Ht. unfold or_. rewrite get_dict, Hl. simpl. now rewrite Ht.
Qed.

Lemma get_lookup d k v :
  lookup (py k) d = Some v -> get (PyDict d) k = Ok v.
Proof. intros H. now rewrite get_dict, H. Qed.

(** The value under a key that holds a truthy value is the whole of the
    chain that starts there. *)
Lemma or_Ok_truthy v b :
  truthy v = true -> (Ok v OR b) = Ok v.
Proof. intros H. unfold or_. simpl. now rewrite H. Qed.

Lemma or_Ok_falsy v b :
  truthy v = false -> (Ok v OR b) = b.
Proof. intros H. unfold or_. simpl. now rewrite H. Qed.

(** The image descent on a record whose [media] is a non-empty dict. *)
Lemma map_primary_image_media d kv m :
  lookup (py "media") d = Some (PyDict (kv :: m)) ->
  map_primary_image (PyDict d) =
    (albums <- (get (PyDict (kv :: m)) "albums" OR Ok (PyList [])) ;;
     primary_image <-
       (if truthy albums && is_list albums then
          album <- item0 albums ;;
          images <- (get album "images" OR Ok (PyList [])) ;;
          if truthy images then
            img <- item0 images ;;
            (get img "secureSrc" OR get img "imageURL" OR get img "src")
          else Ok PyNone
        else Ok PyNone) ;;
     Ok (if negb (truthy primary_image) then PyStr [] else primary_image)).
Proof.
  intros H. unfold map_primary_image.
  now rewrite (or_get_truthy d "media" _ _ H eq_refl).
Qed.

(** The image descent on a record whose first album is a dict. *)
Lemma map_primary_image_album d kv m album albums :
  lookup (py "media") d = Some (PyDict (kv :: m)) ->
  lookup (py "albums") (kv :: m) = Some (PyList (PyDict album :: albums)) ->
  map_primary_image (PyDict d) =
    (images <- (get (PyDict album) "images" OR Ok (PyList [])) ;;
     primary_image <-
       (if truthy images then
          img <- item0 images ;;
          (get img "secureSrc" OR get img "imageURL" OR get img "src")
        else Ok PyNone) ;;
     Ok (if negb (truthy primary_image) then PyStr [] else primary_image)).
Proof.
  intros Hm Ha. rewrite (map_primary_image_media _ _ _ Hm).
  rewrite (or_get_truthy _ "albums" _ _ Ha eq_refl). cbn [bind truthy is_list andb item0].
  destruct (get (PyDict album) "images" OR Ok (PyList [])) as [images|e]; [|reflexivity].
  cbn [bind]. destruct (truthy images); [|reflexivity].
  destruct (item0 images) as [img|e]; [|reflexivity].
  cbn [bind]. reflexivity.
Qed.

(** X11. A missing image is not an error. The image of the record is the
    empty string when the effective record has no truthy [media]; when
    [media] has no truthy [albums], or [albums] is not a list; when the
    first album has no truthy [images]; and when the first image has no
    truthy value under [secureSrc], [imageURL] and [src]. *)
Theorem missing_image_is_empty_string d :
  (falsy_at (PyDict d) "media" -> map_primary_image (PyDict d) = Ok (PyStr []))
  /\ (forall m,
        lookup (py "media") d = Some (PyDict m) ->
        falsy_at (PyDict m) "albums"
        \/ (exists a, lookup (py "albums") m = Some a /\ is_list a = false) ->
        map_primary_image (PyDict d) = Ok (PyStr []))
  /\ (forall m album albums,
        lookup (py "media") d = Some (PyDict m) ->
        lookup (py "albums") m = Some (PyList (PyDict album :: albums)) ->
        falsy_at (PyDict album) "images" ->
        map_primary_image (PyDict d) = Ok (PyStr []))
  /\ (forall m album albums img images,
        lookup (py "media") d = Some (PyDict m) ->
        lookup (py "albums") m = Some (PyList (PyDict album :: albums)) ->
        lookup (py "images") album = Some (PyList (PyDict img :: images)) ->
        falsy_at (PyDict img) "secureSrc" ->
        falsy_at (PyDict img) "imageURL" ->
        falsy_at (PyDict img) "src" ->
        map_primary_image (PyDict d) = Ok (PyStr [])).
Proof.
  split; [|split; [|split]].
  - intros H. unfold map_primary_image. rewrite (or_get_falsy _ _ _ H). reflexivity.
  - intros m Hm Ha. destruct m as [|kv m].
    { unfold map_primary_image.
      rewrite (or_get_falsy d "media");
        [reflexivity | intros v Hv; rewrite (get_lookup _ _ _ Hm) in Hv; now inversion Hv]. }
    rewrite (map_primary_image_media _ _ _ Hm).
    destruct Ha as [Ha | (a & Ha & Hl)].
    + rewrite (or_get_falsy _ _ _ Ha). reflexivity.
    + unfold or_ at 1. rewrite (get_lookup _ _ _ Ha). cbn [bind].
      destruct (truthy a) eqn:Ta; cbn [bind]; [|reflexivity].
      rewrite Ta, Hl. reflexivity.
  - intros m album albums Hm Ha Hi. destruct m as [|kv m]; [discriminate Ha|].
    rewrite (map_primary_image_album _ _ _ _ _ Hm Ha).
    rewrite (or_get_falsy _ _ _ Hi). reflexivity.
  - intros m album albums img images Hm Ha Hi F1 F2 F3.
    destruct m as [|kv m]; [discriminate Ha|].
    rewrite (map_primary_image_album _ _ _ _ _ Hm Ha).
    rewrite (or_get_truthy _ "images" _ _ Hi eq_refl). cbn [bind truthy item0].
    rewrite (or_get_falsy _ _ _ F1), (or_get_falsy _ _ _ F2).
    rewrite get_dict. cbn [bind].
    now rewrite (F3 _ (get_dict img "src")).
Qed.

(** X12. The image is read from the first image of the first album only,
    and [secureSrc] is preferred to [imageURL], which is preferred to
    [src]: the first of them that holds a truthy value is the image. *)
Theorem image_source_priority d m album albums img images :
  lookup (py "media") d = Some (PyDict m) ->
  lookup (py "albums") m = Some (PyList (PyDict album :: albums)) ->
  lookup (py "images") album = Some (PyList (PyDict img :: images)) ->
  (forall v, lookup (py "secureSrc") img = Some v -> truthy v = true ->
             map_primary_image (PyDict d) = Ok v)
  /\ (forall v, falsy_at (PyDict img) "secureSrc" ->
                lookup (py "imageURL") img = Some v -> truthy v = true ->
                map_primary_image (PyDict d) = Ok v)
  /\ (forall v, falsy_at (PyDict img) "secureSrc" ->
                falsy_at (PyDict img) "imageURL" ->
                lookup (py "src") img = Some v -> truthy v = true ->
                map_primary_image (PyDict d) = Ok v).
Proof.
  intros Hm Ha Hi. destruct m as [|kv m]; [discriminate Ha|].
  rewrite (map_primary_image_album _ _ _ _ _ Hm Ha).
  rewrite (or_get_truthy _ "images" _ _ Hi eq_refl). cbn [bind truthy item0].
  split; [|split].
  - intros v Hv Tv. rewrite (or_get_truthy _ "secureSrc" _ _ Hv Tv).
    cbn [bind]. now rewrite Tv.
  - intros v F1 Hv Tv. rewrite (or_get_falsy _ _ _ F1).
    rewrite (or_get_truthy _ "imageURL" _ _ Hv Tv). cbn [bind]. now rewrite Tv.
  - intros v F1 F2 Hv Tv. rewrite (or_get_falsy _ _ _ F1), (or_get_falsy _ _ _ F2).
    rewrite (get_lookup _ _ _ Hv). cbn [bind]. now rewrite Tv.
Qed.

Lemma image_source_priority_witness :
  map_primary_image
    (PyDict [(py "media",
              PyDict [(py "albums",
                       PyList [PyDict [(py "images",
                                        PyList [PyDict [(py "src", PyStr (py "c.jpg"));
                                                        (py "secureSrc", PyStr []);
                                                        (py "imageURL", PyStr (py "b.jpg"))];
                                                PyDict [(py "secureSrc", PyStr (py "z.jpg"))]])];
                               PyDict []])])])
  = Ok (PyStr (py "b.jpg")).
Proof.
  assert (H := fun m album albums img images Hm Ha Hi =>
                 proj1 (proj2 (image_source_priority
                                 [(py "media", PyDict m)] m album albums img images
                                 Hm Ha Hi))).
  simple refine (H _ _ _ _ _ eq_refl _ _ (PyStr (py "b.jpg")) _ _ _);
    [ | | | | reflexivity | reflexivity | | reflexivity | reflexivity ].
  intros v Hv. vm_compute in Hv. inversion Hv. reflexivity.
Defined.

(** X13. The title chain never ends on a falsy value: when it succeeds,
    its value is truthy (a name, a product name, or "Unknown Product"),
    never [None] nor an empty string. *)
Theorem title_is_truthy data v :
  map_title data = Ok v -> truthy v = true.
Proof.
  unfold map_title. intros H.
  apply or_Ok in H. destruct H as [[_ T] | (x & _ & _ & H)]; [exact T|].
  apply or_Ok in H. destruct H as [[_ T] | (y & _ & _ & H)]; [exact T|].
  inversion H. reflexivity.
Qed.

Lemma title_is_truthy_witness :
  map_title (PyDict [(py "name", PyStr []);
                     (py "product", PyDict [(py "productName", PyNone)])])
  = Ok (PyStr (py "Unknown Product"))
  /\ truthy (PyStr (py "Unknown Product")) = true.
Proof.
  split; [reflexivity|].
  apply (title_is_truthy
           (PyDict [(py "name", PyStr []);
                    (py "product", PyDict [(py "productName", PyNone)])])).
  reflexivity.
Defined.

(** X14. The image descent never yields [None] or another falsy value:
    when it succeeds, its value is truthy or the empty string. *)
Theorem image_is_truthy_or_empty data v :
  map_primary_image data = Ok v -> truthy v = true \/ v = PyStr [].
Proof.
  unfold map_primary_image. intros H.
  bind_inv H. bind_inv H. bind_inv H.
  inversion H. destruct (truthy x1) eqn:T; simpl; [now left | now right].
Qed.

Lemma image_is_truthy_or_empty_witness :
  map_primary_image (PyDict [(py "media", PyDict [(py "albums", PyStr (py "none"))])])
  = Ok (PyStr [])
  /\ (truthy (PyStr []) = true \/ PyStr [] = PyStr []).
Proof.
  split; [reflexivity|].
  apply (image_is_truthy_or_empty
           (PyDict [(py "media", PyDict [(py "albums", PyStr (py "none"))])])).
  reflexivity.
Defined.

(** X15. The [product] of the title chain has no guard: when the
    effective record has no truthy [name] and holds under [product]
    something that is not a mapping (null included), the mapping raises
    [AttributeError], which leaves the handler uncaught. With a truthy
    [name] the same record is mapped: [product] is not looked at. *)
Theorem product_that_is_not_a_mapping w url raw_data d p :
  reaches_mapping w url raw_data ->
  effective_record raw_data = Ok (PyDict d) ->
  lookup (py "product") d = Some p ->
  is_dict p = false ->
  (falsy_at (PyDict d) "name" ->
   snd (fetch_myntra_product w url) = Raise (Uncaught AttributeError))
  /\ (forall v, lookup (py "name") d = Some v -> truthy v = true ->
                map_title (PyDict d) = Ok v).
Proof.
  intros Hr He Hp Hd. split.
  - intros Hn. rewrite (fetch_reaches_mapping _ _ _ Hr).
    unfold map_fields. rewrite He. cbn [bind].
    unfold map_title. rewrite (or_get_falsy _ _ _ Hn).
    unfold or_ at 1. unfold get_default at 1. rewrite Hp. cbn [bind].
    unfold get. now rewrite (get_not_dict _ _ _ Hd).
  - intros v Hv Tv. unfold map_title. now apply or_get_truthy.
Qed.

Lemma null_product_reaches_mapping :
  reaches_mapping (page_world [pyq "var pdpData={'product':null}"]) shoe_url
    (PyDict [(py "product", PyNone)]).
Proof.
  exists (py "www.myntra.com"), (mkResponse 200 (py "<html></html>")),
         (pyq "var pdpData={'product':null}").
  conjs; vm_compute; reflexivity.
Qed.

Lemma product_that_is_not_a_mapping_witness :
  snd (fetch_myntra_product (page_world [pyq "var pdpData={'product':null}"]) shoe_url)
  = Raise (Uncaught AttributeError).
Proof.
  refine (proj1 (product_that_is_not_a_mapping _ _ _
                   [(py "product", PyNone)] PyNone
                   null_product_reaches_mapping eq_refl eq_refl eq_refl) _).
  intros v Hv. vm_compute in Hv. inversion Hv. reflexivity.
Defined.

(** What the steps of a successful mapping computed for the stock. *)
Lemma map_fields_in_stock w raw_data r data :
  map_fields w raw_data = Ok r ->
  effective_record raw_data = Ok data ->
  map_in_stock data = Ok (in_stock r).
Proof.
  unfold map_fields. intros H He. rewrite He in H. cbn [bind] in H.
  bind_inv H. bind_inv H. bind_inv H. bind_inv H. bind_inv H.
  bind_inv H. bind_inv H. bind_inv H.
  unfold ProductResponse_new in H.
  destruct (pydantic_str w x); [|discriminate].
  destruct (pydantic_str w x0); [|discriminate].
  inversion H; subst; simpl. assumption.
Qed.

(** X16. The product is in stock unless the flags say otherwise: in a
    returned record [in_stock] is true when the effective record has no
    truthy [flags], and otherwise it is the negation of the truthiness of
    what [flags] holds under [outOfStock] (false when the key is absent;
    any truthy value, a non-empty string included, means out of stock). *)
Theorem in_stock_negates_out_of_stock w raw_data r data :
  map_fields w raw_data = Ok r ->
  effective_record raw_data = Ok data ->
  (falsy_at data "flags" -> in_stock r = true)
  /\ (forall flags,
        get data "flags" = Ok (PyDict flags) ->
        in_stock r = negb (truthy (match lookup (py "outOfStock") flags with
                                   | Some v => v
                                   | None => PyBool false
                                   end))).
Proof.
  intros H He. pose proof (map_fields_in_stock _ _ _ _ H He) as Hs.
  unfold map_in_stock in Hs. split.
  - intros F. apply bind_Ok in Hs. destruct Hs as (flags & Hf & Hs).
    apply or_Ok in Hf. destruct Hf as [[Hg T] | (x & _ & _ & Hf)].
    { rewrite (F _ Hg) in T. discriminate. }
    inversion Hf; subst flags. simpl in Hs. now inversion Hs.
  - intros flags Hg. unfold or_ in Hs at 1. rewrite Hg in Hs. cbn [bind] in Hs.
    destruct flags as [|kv flags]; simpl in Hs; now inversion Hs.
Qed.

Lemma in_stock_negates_out_of_stock_witness :
  map_fields (page_world [])
    (PyDict [(py "flags", PyDict [(py "outOfStock", PyStr (py "no"))])])
  = Ok {| title := py "Unknown Product"; primary_image := [];
          original_price := 0; discounted_price := 0; in_stock := false |}
  /\ false = negb (truthy (PyStr (py "no"))).
Proof.
  split; [reflexivity|].
  refine (proj2 (in_stock_negates_out_of_stock (page_world [])
                   (PyDict [(py "flags", PyDict [(py "outOfStock", PyStr (py "no"))])])
                   {| title := py "Unknown Product"; primary_image := [];
                      original_price := 0; discounted_price := 0; in_stock := false |}
                   _ eq_refl eq_refl)
                [(py "outOfStock", PyStr (py "no"))] eq_refl).
Defined.

Lemma int_or_0_int w n : n <> 0 -> int_or_0 w (PyInt n) = Ok n.
Proof.
  intros Hn. unfold int_or_0. simpl. apply Z.eqb_neq in Hn. now rewrite Hn.
Qed.

Lemma truthy_int n : n <> 0 -> truthy (PyInt n) = true.
Proof. intros Hn. simpl. apply Z.eqb_neq in Hn. now rewrite Hn. Qed.

(** [get] on a chain whose head is known. *)
Lemma or_head_truthy a b v :
  a = Ok v -> truthy v = true -> (a OR b) = Ok v.
Proof. intros -> T. now apply or_Ok_truthy. Qed.

(** A falsy head of a chain that succeeds is skipped. *)
Lemma or_skip x k b v :
  falsy_at x k -> (get x k OR b) = Ok v -> b = Ok v.
Proof.
  intros F H. apply or_Ok in H. destruct H as [[Hg T] | (y & _ & _ & H)]; [|exact H].
  rewrite (F _ Hg) in T. discriminate.
Qed.

(** A truthy head of a chain that succeeds is its value. *)
Lemma or_take a b v u :
  a = Ok u -> truthy u = true -> (a OR b) = Ok v -> v = u.
Proof.
  intros Ha T H. rewrite (or_head_truthy _ _ _ Ha T) in H. now inversion H.
Qed.

(** X17. The original price is taken from the top-level [mrp], then from
    [mrp] of the price object, then from its [marked]: in a returned
    record it is the first of them that holds a non-zero integer when the
    ones before hold nothing truthy, and 0 when none holds anything
    truthy. *)
Theorem original_price_order w raw_data r data price_info :
  map_fields w raw_data = Ok r ->
  effective_record raw_data = Ok data ->
  map_price_info data = Ok price_info ->
  (forall n, get data "mrp" = Ok (PyInt n) -> n <> 0 ->
             original_price r = n)
  /\ (forall n, falsy_at data "mrp" ->
                get price_info "mrp" = Ok (PyInt n) -> n <> 0 ->
                original_price r = n)
  /\ (forall n, falsy_at data "mrp" -> falsy_at price_info "mrp" ->
                get price_info "marked" = Ok (PyInt n) -> n <> 0 ->
                original_price r = n)
  /\ (falsy_at data "mrp" -> falsy_at price_info "mrp" ->
      falsy_at price_info "marked" ->
      original_price r = 0).
Proof.
  intros H He Hp.
  destruct (map_fields_Ok _ _ _ H)
    as (data' & pi' & op & dp & He' & Hp' & Hop & Hdp & Io & Id).
  rewrite He in He'. inversion He'; subst data'.
  rewrite Hp in Hp'. inversion Hp'; subst pi'.
  unfold map_original_price in Hop.
  split; [|split; [|split]].
  - intros n Hg Hn.
    apply (or_take _ _ _ _ Hg (truthy_int _ Hn)) in Hop. subst op.
    rewrite (int_or_0_int _ _ Hn) in Io. now inversion Io.
  - intros n F1 Hg Hn. apply (or_skip _ _ _ _ F1) in Hop.
    apply (or_take _ _ _ _ Hg (truthy_int _ Hn)) in Hop. subst op.
    rewrite (int_or_0_int _ _ Hn) in Io. now inversion Io.
  - intros n F1 F2 Hg Hn. apply (or_skip _ _ _ _ F1) in Hop.
    apply (or_skip _ _ _ _ F2) in Hop.
    apply (or_take _ _ _ _ Hg (truthy_int _ Hn)) in Hop. subst op.
    rewrite (int_or_0_int _ _ Hn) in Io. now inversion Io.
  - intros F1 F2 F3. apply (or_skip _ _ _ _ F1) in Hop.
    apply (or_skip _ _ _ _ F2) in Hop. apply (or_skip _ _ _ _ F3) in Hop.
    inversion Hop; subst op. unfold int_or_0 in Io. simpl in Io. now inversion Io.
Qed.

(** X18. The discounted price is taken from the top-level
    [discountedPrice], then from [discountedPrice] of the price object,
    then from its [effective]: in a returned record it is the first of
    them that holds a non-zero integer when the ones before hold nothing
    truthy. It is not compared with the original price. *)
Theorem discounted_price_order w raw_data r data price_info :
  map_fields w raw_data = Ok r ->
  effective_record raw_data = Ok data ->
  map_price_info data = Ok price_info ->
  (forall n, get data "discountedPrice" = Ok (PyInt n) -> n <> 0 ->
             discounted_price r = n)
  /\ (forall n, falsy_at data "discountedPrice" ->
                get price_info "discountedPrice" = Ok (PyInt n) -> n <> 0 ->
                discounted_price r = n)
  /\ (forall n, falsy_at data "discountedPrice" ->
                falsy_at price_info "discountedPrice" ->
                get price_info "effective" = Ok (PyInt n) -> n <> 0 ->
                discounted_price r = n).
Proof.
  intros H He Hp.
  destruct (map_fields_Ok _ _ _ H)
    as (data' & pi' & op & dp & He' & Hp' & Hop & Hdp & Io & Id).
  rewrite He in He'. inversion He'; subst data'.
  rewrite Hp in Hp'. inversion Hp'; subst pi'.
  unfold map_discounted_price in Hdp.
  split; [|split].
  - intros n Hg Hn.
    apply (or_take _ _ _ _ Hg (truthy_int _ Hn)) in Hdp. subst dp.
    rewrite (int_or_0_int _ _ Hn) in Id. now inversion Id.
  - intros n F1 Hg Hn. apply (or_skip _ _ _ _ F1) in Hdp.
    apply (or_take _ _ _ _ Hg (truthy_int _ Hn)) in Hdp. subst dp.
    rewrite (int_or_0_int _ _ Hn) in Id. now inversion Id.
  - intros n F1 F2 Hg Hn. apply (or_skip _ _ _ _ F1) in Hdp.
    apply (or_skip _ _ _ _ F2) in Hdp.
    apply (or_take _ _ _ _ Hg (truthy_int _ Hn)) in Hdp. subst dp.
    rewrite (int_or_0_int _ _ Hn) in Id. now inversion Id.
Qed.

(** X19. A price that [int()] cannot convert makes the mapping fail: when
    the top-level [mrp] of the effective record is a non-empty list or
    dict, or an infinite or not-a-number float, no record is returned. *)
Theorem unconvertible_price_gives_no_record w raw_data data v :
  effective_record raw_data = Ok data ->
  get data "mrp" = Ok v ->
  match v with
  | PyList (_ :: _) | PyDict (_ :: _) => True
  | PyFloat (S754_infinity _) | PyFloat S754_nan => True
  | _ => False
  end ->
  exists e, map_fields w raw_data = Raise e.
Proof.
  intros He Hg Hv.
  destruct (map_fields w raw_data) as [r|e] eqn:H; [|eauto]. exfalso.
  destruct (map_fields_Ok _ _ _ H)
    as (data' & pi' & op & dp & He' & Hp' & Hop & Hdp & Io & Id).
  rewrite He in He'. inversion He'; subst data'.
  unfold map_original_price in Hop.
  assert (T : truthy v = true).
  { destruct v as [| | |f| |l|l]; try contradiction.
    - destruct f; try contradiction; reflexivity.
    - destruct l; [contradiction | reflexivity].
    - destruct l; [contradiction | reflexivity]. }
  apply (or_take _ _ _ _ Hg T) in Hop. subst op.
  unfold int_or_0 in Io. rewrite T in Io.
  destruct v as [| | |f| |l|l]; try contradiction; simpl in Io.
  - destruct f; try contradiction; discriminate Io.
  - discriminate Io.
  - discriminate Io.
Qed.

Lemma original_price_order_witness :
  (map_fields (page_world [])
     (PyDict [(py "mrp", PyInt 2000);
              (py "price", PyDict [(py "mrp", PyInt 1500); (py "marked", PyInt 799)])])
   = Ok {| title := py "Unknown Product"; primary_image := [];
           original_price := 2000; discounted_price := 2000; in_stock := true |}
   /\ original_price
        {| title := py "Unknown Product"; primary_image := [];
           original_price := 2000; discounted_price := 2000; in_stock := true |} = 2000)
  /\ (map_fields (page_world [])
        (PyDict [(py "mrp", PyNone);
                 (py "price", PyDict [(py "mrp", PyInt 1500); (py "marked", PyInt 799)])])
      = Ok {| title := py "Unknown Product"; primary_image := [];
              original_price := 1500; discounted_price := 1500; in_stock := true |}
      /\ original_price
           {| title := py "Unknown Product"; primary_image := [];
              original_price := 1500; discounted_price := 1500; in_stock := true |} = 1500)
  /\ (map_fields (page_world [])
        (PyDict [(py "mrp", PyNone);
                 (py "price", PyDict [(py "mrp", PyInt 0); (py "marked", PyInt 799)])])
      = Ok {| title := py "Unknown Product"; primary_image := [];
              original_price := 799; discounted_price := 799; in_stock := true |}
      /\ original_price
           {| title := py "Unknown Product"; primary_image := [];
              original_price := 799; discounted_price := 799; in_stock := true |} = 799)
  /\ (map_fields (page_world [])
        (PyDict [(py "price", PyDict [(py "mrp", PyInt 0); (py "marked", PyStr [])])])
      = Ok {| title := py "Unknown Product"; primary_image := [];
              original_price := 0; discounted_price := 0; in_stock := true |}
      /\ original_price
           {| title := py "Unknown Product"; primary_image := [];
              original_price := 0; discounted_price := 0; in_stock := true |} = 0).
Proof.
  split; [|split; [|split]]; (split; [reflexivity|]).
  - refine (proj1 (original_price_order (page_world [])
            (PyDict [(py "mrp", PyInt 2000);
                     (py "price", PyDict [(py "mrp", PyInt 1500); (py "marked", PyInt 799)])])
            {| title := py "Unknown Product"; primary_image := [];
               original_price := 2000; discounted_price := 2000; in_stock := true |}
            _ _ eq_refl eq_refl eq_refl) 2000 eq_refl _).
    discriminate.
  - refine (proj1 (proj2 (original_price_order (page_world [])
            (PyDict [(py "mrp", PyNone);
                     (py "price", PyDict [(py "mrp", PyInt 1500); (py "marked", PyInt 799)])])
            {| title := py "Unknown Product"; primary_image := [];
               original_price := 1500; discounted_price := 1500; in_stock := true |}
            _ _ eq_refl eq_refl eq_refl)) 1500 _ eq_refl _);
      try (intros v Hv; vm_compute in Hv; inversion Hv; reflexivity).
    discriminate.
  - refine (proj1 (proj2 (proj2 (original_price_order (page_world [])
            (PyDict [(py "mrp", PyNone);
                     (py "price", PyDict [(py "mrp", PyInt 0); (py "marked", PyInt 799)])])
            {| title := py "Unknown Product"; primary_image := [];
               original_price := 799; discounted_price := 799; in_stock := true |}
            _ _ eq_refl eq_refl eq_refl))) 799 _ _ eq_refl _);
      try (intros v Hv; vm_compute in Hv; inversion Hv; reflexivity).
    discriminate.
  - refine (proj2 (proj2 (proj2 (original_price_order (page_world [])
            (PyDict [(py "price", PyDict [(py "mrp", PyInt 0); (py "marked", PyStr [])])])
            {| title := py "Unknown Product"; primary_image := [];
               original_price := 0; discounted_price := 0; in_stock := true |}
            _ _ eq_refl eq_refl eq_refl))) _ _ _);
      intros v Hv; vm_compute in Hv; inversion Hv; reflexivity.
Defined.

Lemma discounted_price_order_witness :
  map_fields (page_world [])
    (PyDict [(py "mrp", PyInt 1000); (py "discountedPrice", PyInt 1200);
             (py "price", PyDict [(py "discountedPrice", PyInt 900)])])
  = Ok {| title := py "Unknown Product"; primary_image := [];
          original_price := 1000; discounted_price := 1200; in_stock := true |}
  /\ discounted_price
       {| title := py "Unknown Product"; primary_image := [];
          original_price := 1000; discounted_price := 1200; in_stock := true |} = 1200.
Proof.
  split; [reflexivity|].
  refine (proj1 (discounted_price_order (page_world [])
            (PyDict [(py "mrp", PyInt 1000); (py "discountedPrice", PyInt 1200);
                     (py "price", PyDict [(py "discountedPrice", PyInt 900)])])
            {| title := py "Unknown Product"; primary_image := [];
               original_price := 1000; discounted_price := 1200; in_stock := true |}
            _ _ eq_refl eq_refl eq_refl) 1200 eq_refl _).
  discriminate.
Defined.

Lemma unconvertible_price_gives_no_record_witness :
  exists e,
    map_fields (page_world []) (PyDict [(py "mrp", PyList [PyInt 1999])]) = Raise e.
Proof.
  apply (unconvertible_price_gives_no_record (page_world [])
           (PyDict [(py "mrp", PyList [PyInt 1999])])
           (PyDict [(py "mrp", PyList [PyInt 1999])])
           (PyList [PyInt 1999]));
    [reflexivity | reflexivity | exact I].
Defined.
